(** * OTRadioLink: valve motor driver and valve control state

    A shallow embedding of the parts of
    [OTRadValve_CurrentSenseValveMotorDirect.h] and
    [OTRadValve_AbstractRadValve.h] that carry the motor-driver state
    machine's data (major state, per-state scratch union, current and
    target percentages, calibration parameters), together with the
    per-tick bookkeeping of the valve control state.

    All [uint8_t] and [uint16_t] quantities are carried as [Z]; where the
    source converts a wider value to a narrower type the wrap-around is
    written out with [U8.wrap]. *)

From Stdlib Require Import ZArith Lia Bool List.
Import ListNotations.
Local Open Scope Z_scope.

(** ** Fixed-width unsigned integers *)

Module U8.
Definition modulus : Z := 256.
Definition wrap (z : Z) : Z := z mod modulus.
Definition inRange (z : Z) : Prop := 0 <= z < modulus.
End U8.

Module U16.
Definition modulus : Z := 65536.
Definition wrap (z : Z) : Z := z mod modulus.
Definition inRange (z : Z) : Prop := 0 <= z < modulus.
End U16.

(** ** OTV0P2BASE utility templates *)

Module OTV0P2BASE.

(** Modelled from the spec: the header declaring the [fnmin] template is
    absent; [setTargetPC] is documented as coercing into range, so
    [fnmin a b] is the smaller of its arguments. *)
Definition fnmin (a b : Z) : Z := if b <? a then b else a.

(** Modelled from the spec: the header declaring the [fnmax] template is
    absent; [fnmax a b] is the larger of its arguments. *)
Definition fnmax (a b : Z) : Z := if a <? b then b else a.

(** Modelled from the spec: the header declaring the [fnconstrain]
    template is absent; the spec has the dead-reckoned position clamped
    into the closed interval given by the two bounds. *)
Definition fnconstrain (x l h : Z) : Z :=
  if x <? l then l else if h <? x then h else x.

(** Modelled from the spec: the header declaring the [fnabsdiff] template
    is absent; the spec reads it as the absolute difference
    [|target - current|], computed without going below zero. *)
Definition fnabsdiff (a b : Z) : Z := if a <? b then b - a else a - b.

End OTV0P2BASE.

Module OTRadValve.
Import OTV0P2BASE.

(** ** Constants of the absent OTRadValve_Parameters.h

    The thresholds are used by name only in the sources at hand, so they
    are taken as parameters. *)
Class Parameters : Type := {
  DEFAULT_VALVE_PC_SAFER_OPEN : Z;
  DEFAULT_VALVE_PC_MODERATELY_OPEN : Z;
  DEFAULT_ANTISEEK_VALVE_REOPEN_DELAY_M : Z;
  DEFAULT_ANTISEEK_VALVE_RECLOSE_DELAY_M : Z
}.

(** ** AbstractRadValve and RadValveMock (OTRadValve_AbstractRadValve.h) *)

(** [AbstractRadValve::isValid]. *)
Definition isValid (value : Z) : bool := value <=? 100.

(** [RadValveMock]: the only state is the inherited [value]. *)
Record RadValveMock : Type := mkRadValveMock { value : Z }.

(** [RadValveMock::set]: returns the acceptance flag and the new object. *)
Definition RadValveMock_set (newValue : Z) (v : RadValveMock)
  : bool * RadValveMock :=
  if negb (isValid newValue) then (false, v)
  else (true, mkRadValveMock newValue).

Definition RadValveMock_get (v : RadValveMock) : Z := value v.

(** ** Driver states *)

Inductive driverState : Type :=
| init
| initWaiting
| valvePinWithdrawing
| valvePinWithdrawn
| valveCalibrating
| valveNormal
| valveDecalcinating
| valveError.

(** The enumerators' values, [init = 0] upwards. *)
Definition driverState_value (s : driverState) : Z :=
  match s with
  | init => 0
  | initWaiting => 1
  | valvePinWithdrawing => 2
  | valvePinWithdrawn => 3
  | valveCalibrating => 4
  | valveNormal => 5
  | valveDecalcinating => 6
  | valveError => 7
  end.

Definition driverState_eqb (a b : driverState) : bool :=
  driverState_value a =? driverState_value b.

(** ** The per-state scratch union

    The union is kept as its raw bytes; each member struct is a view that
    reads its fields at the offsets given by declaration order (the
    declared order is largest-first, so there is no interior padding).
    Two-byte fields are read low byte first. *)

Module PerState.

Definition t : Type := list Z.

Definition byte (p : t) (off : nat) : Z := nth off p 0.
Definition half (p : t) (off : nat) : Z :=
  byte p off + 256 * byte p (S off).

Fixpoint store (p : t) (off : nat) (b : Z) : t :=
  match p, off with
  | [], _ => []
  | _ :: q, O => b :: q
  | x :: q, S k => x :: store q k b
  end.

(** [memset(&perState, 0, sizeof(perState))]. *)
Definition zeroed (p : t) : t := repeat 0 (length p).

(* struct { uint8_t ticksWaited; } initWaiting *)
Definition initWaiting_ticksWaited (p : t) : Z := byte p 0.

(* struct { ... } valveCalibrating *)
Definition valveCalibrating_ticksFromOpenToClosed (p : t) : Z := half p 0.
Definition valveCalibrating_ticksFromClosedToOpen (p : t) : Z := half p 2.
Definition valveCalibrating_calibState (p : t) : Z := byte p 4.
Definition valveCalibrating_wallclock2sTicks (p : t) : Z := byte p 5.
Definition valveCalibrating_endStopHitCount (p : t) : Z := byte p 6.

(* struct { ... } valvePinWithdrawing *)
Definition valvePinWithdrawing_wallclock2sTicks (p : t) : Z := byte p 0.
Definition valvePinWithdrawing_endStopHitCount (p : t) : Z := byte p 1.

(* struct { volatile bool valveFitted; } valvePinWithdrawn *)
Definition valvePinWithdrawn_valveFitted (p : t) : bool :=
  negb (byte p 0 =? 0).

(* struct { uint8_t endStopHitCount; } valveNormal *)
Definition valveNormal_endStopHitCount (p : t) : Z := byte p 0.

(** Every field of every member reads as zero. *)
Definition allClear (p : t) : Prop :=
  initWaiting_ticksWaited p = 0 /\
  valveCalibrating_ticksFromOpenToClosed p = 0 /\
  valveCalibrating_ticksFromClosedToOpen p = 0 /\
  valveCalibrating_calibState p = 0 /\
  valveCalibrating_wallclock2sTicks p = 0 /\
  valveCalibrating_endStopHitCount p = 0 /\
  valvePinWithdrawing_wallclock2sTicks p = 0 /\
  valvePinWithdrawing_endStopHitCount p = 0 /\
  valvePinWithdrawn_valveFitted p = false /\
  valveNormal_endStopHitCount p = 0.

End PerState.

(** ** CurrentSenseValveMotorDirectBinaryOnly *)

Record CurrentSenseValveMotorDirectBinaryOnly : Type := mkBinaryOnly {
  sctAbsLimit : Z;
  minMotorDRTicks : Z;
  state : driverState;
  perState : PerState.t;
  endStopDetected : bool;
  currentPC : Z;
  targetPC : Z
}.

Definition MAX_TRAVEL_S : Z := 4 * 60.
Definition MAX_TRAVEL_WALLCLOCK_2s_TICKS : Z := fnmax 4 (MAX_TRAVEL_S / 2).
Definition initialRetractDelay_s : Z := 30.
Definition minMotorDRMS : Z := 250.
Definition maxEndStopHitsToBeConfident : Z := 4.

Definition computeSctAbsLimitDR (d : CurrentSenseValveMotorDirectBinaryOnly) : Z :=
  U8.wrap (sctAbsLimit d - minMotorDRTicks d).

Definition clearPerState (d : CurrentSenseValveMotorDirectBinaryOnly)
  : CurrentSenseValveMotorDirectBinaryOnly :=
  if 0 <? Z.of_nat (length (perState d))
  then mkBinaryOnly (sctAbsLimit d) (minMotorDRTicks d) (state d)
         (PerState.zeroed (perState d))
         (endStopDetected d) (currentPC d) (targetPC d)
  else d.

Definition changeState (newState : driverState)
  (d : CurrentSenseValveMotorDirectBinaryOnly)
  : CurrentSenseValveMotorDirectBinaryOnly :=
  clearPerState
    (mkBinaryOnly (sctAbsLimit d) (minMotorDRTicks d) newState (perState d)
       (endStopDetected d) (currentPC d) (targetPC d)).

Definition isAtEndstop (valvePC : Z) : bool :=
  (0 =? valvePC) || (100 =? valvePC).

Definition resetCurrentPC (hitEndstopOpen : bool)
  (d : CurrentSenseValveMotorDirectBinaryOnly)
  : CurrentSenseValveMotorDirectBinaryOnly :=
  mkBinaryOnly (sctAbsLimit d) (minMotorDRTicks d) (state d) (perState d)
    (endStopDetected d) (if hitEndstopOpen then 100 else 0) (targetPC d).

(** The constructor: the member initialisers, then [changeState(init)].
    [scratch] is the storage the union happens to occupy beforehand. *)
Definition newBinaryOnly `{Parameters} (_minMotorDRTicks _sctAbsLimit : Z)
  (scratch : PerState.t) : CurrentSenseValveMotorDirectBinaryOnly :=
  changeState init
    (mkBinaryOnly _sctAbsLimit _minMotorDRTicks init scratch false 100
       (U8.wrap (DEFAULT_VALVE_PC_SAFER_OPEN - 1))).

Definition _getState (d : CurrentSenseValveMotorDirectBinaryOnly) := state d.
Definition getCurrentPC (d : CurrentSenseValveMotorDirectBinaryOnly) := currentPC d.
Definition getTargetPC (d : CurrentSenseValveMotorDirectBinaryOnly) := targetPC d.

Definition setTargetPC (newPC : Z) (d : CurrentSenseValveMotorDirectBinaryOnly)
  : CurrentSenseValveMotorDirectBinaryOnly :=
  mkBinaryOnly (sctAbsLimit d) (minMotorDRTicks d) (state d) (perState d)
    (endStopDetected d) (currentPC d) (fnmin newPC 100).


Definition isWaitingForValveToBeFitted
  (d : CurrentSenseValveMotorDirectBinaryOnly) : bool :=
  driverState_eqb (state d) valvePinWithdrawn.

Definition signalValveFitted (d : CurrentSenseValveMotorDirectBinaryOnly)
  : CurrentSenseValveMotorDirectBinaryOnly :=
  if isWaitingForValveToBeFitted d
  then mkBinaryOnly (sctAbsLimit d) (minMotorDRTicks d) (state d)
         (PerState.store (perState d) 0 1)
         (endStopDetected d) (currentPC d) (targetPC d)
  else d.

Definition isInNormalRunState (d : CurrentSenseValveMotorDirectBinaryOnly) : bool :=
  driverState_eqb (state d) valveNormal.

Definition isInErrorState (d : CurrentSenseValveMotorDirectBinaryOnly) : bool :=
  driverState_value valveError <=? driverState_value (state d).

(** ** CurrentSenseValveMotorDirect *)

Definition absTolerancePC : Z := 11.

Definition closeEnoughToTarget `{Parameters} (targetPC currentPC : Z) : bool :=
  (targetPC =? currentPC) ||
  (fnabsdiff targetPC currentPC <=? absTolerancePC) ||
  ((targetPC <? DEFAULT_VALVE_PC_SAFER_OPEN) && (currentPC <=? targetPC)) ||
  ((DEFAULT_VALVE_PC_SAFER_OPEN <=? targetPC) && (targetPC <=? currentPC)).

Module CalibrationParameters.

Definition max_usuable_precision : Z := 15.
Definition bad_precision : Z := 100.

Record t : Type := mk {
  ticksFromOpenToClosed : Z;
  ticksFromClosedToOpen : Z;
  approxPrecisionPC : Z;
  tfotcSmall : Z;
  tfctoSmall : Z
}.

(** The default member initialisers. *)
Definition fresh : t := mk 0 0 bad_precision 0 0.

Definition getTicksFromOpenToClosed (c : t) : Z := ticksFromOpenToClosed c.
Definition getTicksFromClosedToOpen (c : t) : Z := ticksFromClosedToOpen c.
Definition getApproxPrecisionPC (c : t) : Z := approxPrecisionPC c.

Definition cannotRunProportional (c : t) : bool :=
  max_usuable_precision <? approxPrecisionPC c.

End CalibrationParameters.

Record CurrentSenseValveMotorDirect : Type := mkProportional {
  super : CurrentSenseValveMotorDirectBinaryOnly;
  cp : CalibrationParameters.t;
  needsRecalibrating : bool;
  ticksFromOpen : Z;
  ticksReverse : Z
}.

(** Bodies that live in the absent OTRadValve_CurrentSenseValveMotorDirect.cpp
    and are only declared in the header.  [computePosition] takes the two
    tick counters by reference, so it returns the position together with
    their new values. *)
Class OutOfLineCode : Type := {
  computePosition :
    CalibrationParameters.t -> Z -> Z -> Z * (Z * Z);
  proportional_getMinPercentOpen : CurrentSenseValveMotorDirect -> Z
}.

Definition MAX_TICKS_FROM_OPEN : Z := U16.modulus - 1.

(** The inherited constructor.  [ticksFromOpen] and [ticksReverse] have no
    initialiser, so their first values are whatever the caller's storage
    holds. *)
Definition newProportional `{Parameters} (_minMotorDRTicks _sctAbsLimit : Z)
  (scratch : PerState.t) (tfo tr : Z) : CurrentSenseValveMotorDirect :=
  mkProportional (newBinaryOnly _minMotorDRTicks _sctAbsLimit scratch)
    CalibrationParameters.fresh true tfo tr.


Definition proportional_recomputeIntermediatePosition `{OutOfLineCode}
  (d : CurrentSenseValveMotorDirect) : CurrentSenseValveMotorDirect :=
  if negb (needsRecalibrating d)
  then
    let '(pos, (tfo, tr)) :=
      computePosition (cp d) (ticksFromOpen d) (ticksReverse d) in
    let b := super d in
    mkProportional
      (mkBinaryOnly (sctAbsLimit b) (minMotorDRTicks b) (state b) (perState b)
         (endStopDetected b) (fnconstrain pos 1 99) (targetPC b))
      (cp d) (needsRecalibrating d) tfo tr
  else d.

Definition proportional_hitEndstop (hitEndstopOpen : bool)
  (d : CurrentSenseValveMotorDirect) : CurrentSenseValveMotorDirect :=
  mkProportional (resetCurrentPC hitEndstopOpen (super d)) (cp d)
    (needsRecalibrating d)
    (if hitEndstopOpen then 0
     else CalibrationParameters.getTicksFromOpenToClosed (cp d))
    0.

Definition inNonProportionalMode (d : CurrentSenseValveMotorDirect) : bool :=
  needsRecalibrating d || CalibrationParameters.cannotRunProportional (cp d).

(** ** Virtual dispatch

    The virtual members that the two driver classes implement
    differently, as a class over the object type. *)
Class ValveDriver (D : Type) : Type := {
  base : D -> CurrentSenseValveMotorDirectBinaryOnly;
  getMinPercentOpen : D -> Z;
  recomputeIntermediatePosition : D -> D;
  hitEndstop : bool -> D -> D;
  isNonProportionalOnly : D -> bool
}.

#[export] Instance BinaryOnly_driver `{Parameters}
  : ValveDriver CurrentSenseValveMotorDirectBinaryOnly := {
  base := fun d => d;
  getMinPercentOpen := fun _ => DEFAULT_VALVE_PC_MODERATELY_OPEN;
  recomputeIntermediatePosition := fun d => d;
  hitEndstop := resetCurrentPC;
  isNonProportionalOnly := fun _ => true
}.

#[export] Instance Proportional_driver `{OutOfLineCode}
  : ValveDriver CurrentSenseValveMotorDirect := {
  base := super;
  getMinPercentOpen := proportional_getMinPercentOpen;
  recomputeIntermediatePosition := proportional_recomputeIntermediatePosition;
  hitEndstop := proportional_hitEndstop;
  isNonProportionalOnly := fun _ => false
}.

Definition isControlledValveReallyOpen {D : Type} `{ValveDriver D} (d : D)
  : bool :=
  isInNormalRunState (base d) && (getMinPercentOpen d <=? currentPC (base d)).


(** ** ModelledRadValveState: bookkeeping of the control tick

    The header OTRadValve_ModelledRadValve.h that implements [tick] is
    not among the sources; only its unit tests are.  The records and the
    tick below follow the numbered steps of section 4.1 of the design
    description. *)

Module ModelledRadValve.

(** Modelled from the spec: the input snapshot rebuilt by the caller for
    each tick (absent OTRadValve_ModelledRadValve.h); fields as the data
    model lists them. *)
Record ModelledRadValveInputState : Type := mkInputState {
  targetTempC : Z;
  maxTargetTempC : Z;
  refTempC16 : Z;
  widenDeadband : bool;
  fastResponseRequired : bool;
  hasEcoBias : bool;
  glacial : bool;
  inBakeMode : bool;
  minPCReallyOpen : Z
}.

(** Modelled from the spec: the state owned by the controller (absent
    OTRadValve_ModelledRadValve.h): total movement, the filtering flag, the
    rolling temperature history (most recent first) and the two anti-hunt
    countdowns, which are armed while strictly positive. *)
Record ModelledRadValveState : Type := mkState {
  cumulativeMovementPC : Z;
  isFiltering : bool;
  prevRawTempC16 : list Z;
  turnupLockoutTicks : Z;
  turndownLockoutTicks : Z
}.

(** Modelled from the spec: what section 4.1 leaves to tuning (absent
    OTRadValve_ModelledRadValve.h): the filtering decision of step 2 and
    the percentage that draught detection, bang-bang and the proportional
    zone (steps 3 to 5) settle on when BAKE is not active. *)
Class Tuning : Type := {
  filteringDecision : list Z -> bool -> bool;
  requestedPC :
    ModelledRadValveState -> ModelledRadValveInputState -> Z -> Z
}.

(** Modelled from the spec: a freshly constructed controller (absent
    OTRadValve_ModelledRadValve.h): nothing moved, not filtering, no
    lockout armed. *)
Definition freshState (history : list Z) : ModelledRadValveState :=
  mkState 0 false history 0 0.

(** Modelled from the spec: the lockout queries of the absent
    OTRadValve_ModelledRadValve.h; a countdown is armed while it has
    ticks left. *)
Definition dontTurnup (s : ModelledRadValveState) : bool :=
  0 <? turnupLockoutTicks s.

(** Modelled from the spec: see [dontTurnup]. *)
Definition dontTurndown (s : ModelledRadValveState) : bool :=
  0 <? turndownLockoutTicks s.

(** Modelled from the spec: one tick of a lockout's cooldown (absent
    OTRadValve_ModelledRadValve.h). *)
Definition cooldown (ticksLeft : Z) : Z :=
  if 0 <? ticksLeft then ticksLeft - 1 else 0.

(** Modelled from the spec: step 1 of the tick (absent
    OTRadValve_ModelledRadValve.h): the newest sample enters a
    fixed-length, most-recent-first history. *)
Definition pushTemperature (sample : Z) (history : list Z) : list Z :=
  match history with
  | [] => []
  | _ :: _ => sample :: removelast history
  end.

(** Modelled from the spec: the percentage chosen by a tick (absent
    OTRadValve_ModelledRadValve.h): BAKE forces 100 unconditionally;
    otherwise the tuned request, never outside [0,100]. *)
Definition computeRequiredTRVPercentOpen `{Tuning}
  (valvePCOpen : Z) (inputState : ModelledRadValveInputState)
  (s : ModelledRadValveState) : Z :=
  if inBakeMode inputState then 100
  else fnconstrain (requestedPC s inputState valvePCOpen) 0 100.

(** Modelled from the spec: [tick] of the absent
    OTRadValve_ModelledRadValve.h.  Steps 1 and 2 update the history and
    the filtering flag; steps 3 to 5 choose the new percentage; BAKE arms
    the turn-down lockout in the same tick, a full open arms it too and a
    full close arms the turn-up lockout, otherwise each lockout cools
    down by one tick; step 6 adds the distance moved to
    [cumulativeMovementPC]; a backing valve, when supplied, is commanded
    to the same percentage.  The result is the new percentage, the new
    state and the backing valve. *)
Definition tick `{Parameters} `{Tuning}
  (valvePCOpen : Z) (inputState : ModelledRadValveInputState)
  (backing : option RadValveMock) (s : ModelledRadValveState)
  : Z * ModelledRadValveState * option RadValveMock :=
  let history := pushTemperature (refTempC16 inputState) (prevRawTempC16 s) in
  let filtering := filteringDecision history (isFiltering s) in
  let s1 := mkState (cumulativeMovementPC s) filtering history
              (turnupLockoutTicks s) (turndownLockoutTicks s) in
  let newPC := computeRequiredTRVPercentOpen valvePCOpen inputState s1 in
  let fullClose := (newPC <? valvePCOpen) && (newPC =? 0) in
  let fullOpen := (valvePCOpen <? newPC) && (newPC =? 100) in
  let turnup :=
    if fullClose then DEFAULT_ANTISEEK_VALVE_REOPEN_DELAY_M
    else cooldown (turnupLockoutTicks s) in
  let turndown :=
    if inBakeMode inputState || fullOpen
    then DEFAULT_ANTISEEK_VALVE_RECLOSE_DELAY_M
    else cooldown (turndownLockoutTicks s) in
  (newPC,
   mkState (cumulativeMovementPC s + fnabsdiff newPC valvePCOpen)
     filtering history turnup turndown,
   option_map (fun v => snd (RadValveMock_set newPC v)) backing).

Definition tickPC (r : Z * ModelledRadValveState * option RadValveMock) : Z :=
  fst (fst r).
Definition tickState (r : Z * ModelledRadValveState * option RadValveMock)
  : ModelledRadValveState := snd (fst r).

(** Repeated ticks with no backing valve, one per input snapshot; the
    result is the final percentage and state. *)
Fixpoint ticks `{Parameters} `{Tuning}
  (inputs : list ModelledRadValveInputState) (valvePCOpen : Z)
  (s : ModelledRadValveState) : Z * ModelledRadValveState :=
  match inputs with
  | [] => (valvePCOpen, s)
  | i :: rest =>
      let r := tick valvePCOpen i None s in
      ticks rest (tickPC r) (tickState r)
  end.

(** The percentages seen after each of those ticks, in order. *)
Fixpoint percentages `{Parameters} `{Tuning}
  (inputs : list ModelledRadValveInputState) (valvePCOpen : Z)
  (s : ModelledRadValveState) : list Z :=
  match inputs with
  | [] => []
  | i :: rest =>
      let r := tick valvePCOpen i None s in
      tickPC r :: percentages rest (tickPC r) (tickState r)
  end.

(** A run of percentages that never rises, starting from [from]. *)
Fixpoint closingRun (from : Z) (run : list Z) : Prop :=
  match run with
  | [] => True
  | p :: rest => p <= from /\ closingRun p rest
  end.

(** A run of percentages that never falls, starting from [from]. *)
Fixpoint openingRun (from : Z) (run : list Z) : Prop :=
  match run with
  | [] => True
  | p :: rest => from <= p /\ openingRun p rest
  end.

End ModelledRadValve.

(** ** Sample instances used to run the definitions *)

Module Samples.
Import ModelledRadValve.

Definition parameters : Parameters := {|
  DEFAULT_VALVE_PC_SAFER_OPEN := 50;
  DEFAULT_VALVE_PC_MODERATELY_OPEN := 35;
  DEFAULT_ANTISEEK_VALVE_REOPEN_DELAY_M := 5;
  DEFAULT_ANTISEEK_VALVE_RECLOSE_DELAY_M := 10
|}.

(** A linear dead-reckoning stand-in: the share of the open-to-closed
    travel still to go, with the reverse ticks folded back first. *)
Definition linearPosition (c : CalibrationParameters.t) (tfo tr : Z)
  : Z * (Z * Z) :=
  let folded := Z.max 0 (tfo - tr) in
  let span := CalibrationParameters.ticksFromOpenToClosed c in
  (if span =? 0 then 0 else 100 - (100 * Z.min folded span) / span,
   (folded, 0)).

Definition outOfLine : OutOfLineCode := {|
  computePosition := linearPosition;
  proportional_getMinPercentOpen := fun _ => 20
|}.

(** A bang-bang stand-in for the tuned request: full open below target,
    full closed otherwise, moving at most 40 points per tick. *)
Definition bangBang : Tuning := {|
  filteringDecision := fun _ f => f;
  requestedPC := fun _ i pc =>
    if refTempC16 i <? 16 * targetTempC i then pc + 40 else pc - 40
|}.

Definition room (target : Z) (bake : bool) : ModelledRadValveInputState :=
  mkInputState target 28 (18 * 16) false false false false bake 15.

Definition calibrated : CalibrationParameters.t :=
  CalibrationParameters.mk 400 380 3 200 190.

Definition runningDriver (tfo tr : Z) : CurrentSenseValveMotorDirect :=
  mkProportional
    (mkBinaryOnly 200 10 valveNormal [0; 0; 0; 0; 0; 0; 0; 0] false 100 70)
    calibrated false tfo tr.

End Samples.

End OTRadValve.

(** * Further code of the valve and base libraries *)

(** ** Compile-time sizing helpers of the motor driver
    (OTRadValve_CurrentSenseValveMotorDirect.h) *)

Module MotorTiming.
Import OTV0P2BASE OTRadValve.

(** [computeMinMotorDRTicks]: both operands of [fnmax] are cast to
    [uint8_t]; the division is integer division truncating towards
    zero. *)
Definition computeMinMotorDRTicks (subcycleTicksRoundedDown_ms : Z) : Z :=
  fnmax 1 (U8.wrap (Z.quot minMotorDRMS subcycleTicksRoundedDown_ms)).

(** The quantity that [computeSctAbsLimit] casts to [uint8_t] before
    taking the maximum with 1: computed in [int], so it may be negative. *)
Definition sctMargin (subcycleTicksRoundedDown_ms gcst_max
  minimumMotorRunupTicks : Z) : Z :=
  Z.quot (gcst_max + 1) 4 - minimumMotorRunupTicks - 1
  - Z.quot 240 subcycleTicksRoundedDown_ms.

(** [computeSctAbsLimit]: the subtraction is done in [int] and the result
    converted to the [uint8_t] return type. *)
Definition computeSctAbsLimit (subcycleTicksRoundedDown_ms gcst_max
  minimumMotorRunupTicks : Z) : Z :=
  U8.wrap
    (gcst_max
     - fnmax 1
         (U8.wrap
            (sctMargin subcycleTicksRoundedDown_ms gcst_max
               minimumMotorRunupTicks))).

End MotorTiming.

(** ** Valve actuators (OTRadValve_AbstractRadValve.h) *)

Module RadValves.
Import OTV0P2BASE OTRadValve.

(** The virtual members of [AbstractRadValve] that its subclasses
    implement differently, over the object type. *)
Class AbstractRadValve (V : Type) : Type := {
  get : V -> Z;
  set : Z -> V -> bool * V;
  isInNormalRunState : V -> bool;
  getMinPercentOpen : V -> Z
}.

(** [AbstractRadValve::isControlledValveReallyOpen] (the default). *)
Definition isControlledValveReallyOpen {V : Type} {A : AbstractRadValve V}
  (v : V) : bool :=
  isInNormalRunState v && (getMinPercentOpen v <=? get v).

(** [AbstractRadValve::isCallingForHeat] (the default). *)
Definition isCallingForHeat {V : Type} {A : AbstractRadValve V}
  {params : Parameters} (v : V) : bool :=
  isControlledValveReallyOpen v && (DEFAULT_VALVE_PC_SAFER_OPEN <=? get v).

(** [AbstractRadValve::isUnderTarget] (the default). *)
Definition isUnderTarget {V : Type} {A : AbstractRadValve V}
  {params : Parameters} (v : V) : bool :=
  isCallingForHeat v.

(** [NULLRadValve]: keeps the inherited [set], which accepts nothing, and
    is never in the normal run state. *)
Record NULLRadValve : Type := mkNULLRadValve { null_value : Z }.

#[export] Instance NULLRadValve_valve : AbstractRadValve NULLRadValve := {
  get := null_value;
  set := fun _ v => (false, v);
  isInNormalRunState := fun _ => false;
  getMinPercentOpen := fun _ => 1
}.

(** [RadValveMock]: overrides [set] only. *)
#[export] Instance RadValveMock_valve : AbstractRadValve RadValveMock := {
  get := RadValveMock_get;
  set := RadValveMock_set;
  isInNormalRunState := fun _ => true;
  getMinPercentOpen := fun _ => 1
}.

(** [RadValveMock::reset]. *)
Definition RadValveMock_reset (v : RadValveMock) : RadValveMock :=
  snd (RadValveMock_set 0 v).

(** A run of [set] calls on one valve, in order. *)
Fixpoint setAll {V : Type} {A : AbstractRadValve V} (values : list Z)
  (v : V) : V :=
  match values with
  | [] => v
  | x :: rest => setAll rest (snd (set x v))
  end.

(** The last element of [values] accepted by [isValid], or [d]. *)
Fixpoint lastValid (values : list Z) (d : Z) : Z :=
  match values with
  | [] => d
  | x :: rest => lastValid rest (if isValid x then x else d)
  end.

(** [BinaryRelayHelper::calcRelayState]. *)
Definition calcRelayState {params : Parameters} (value : Z) : bool :=
  DEFAULT_VALVE_PC_SAFER_OPEN <=? value.

(** [BinaryRelayDirect<RELAY_DigitalPin, activeHigh>]: the inherited
    [value], the level last written to the relay pin ([true] for HIGH,
    nothing before the first write) and whether the pin has been made an
    output. *)
Record BinaryRelayDirect : Type := mkBinaryRelayDirect {
  relay_value : Z;
  relay_pinLevel : option bool;
  relay_pinIsOutput : bool
}.

(** [BinaryRelayDirect::setup]. *)
Definition BinaryRelayDirect_setup (activeHigh : bool) (r : BinaryRelayDirect)
  : BinaryRelayDirect :=
  mkBinaryRelayDirect (relay_value r) (Some (negb activeHigh)) true.

(** [BinaryRelayDirect::set]. *)
Definition BinaryRelayDirect_set {params : Parameters} (activeHigh : bool)
  (newValue : Z) (r : BinaryRelayDirect) : bool * BinaryRelayDirect :=
  if 100 <? newValue then (false, r)
  else
    let isActive := calcRelayState newValue in
    (true,
     mkBinaryRelayDirect newValue
       (Some (if activeHigh then isActive else negb isActive))
       (relay_pinIsOutput r)).

#[export] Instance BinaryRelayDirect_valve {params : Parameters}
  (activeHigh : bool) : AbstractRadValve BinaryRelayDirect := {
  get := relay_value;
  set := BinaryRelayDirect_set activeHigh;
  isInNormalRunState := fun _ => true;
  getMinPercentOpen := fun _ => DEFAULT_VALVE_PC_SAFER_OPEN
}.

(** The relay is energised when the pin was last driven to its active
    level. *)
Definition relayEnergised (activeHigh : bool) (r : BinaryRelayDirect) : bool :=
  match relay_pinLevel r with
  | Some level => Bool.eqb level activeHigh
  | None => false
  end.

End RadValves.

(** ** Power management of the AVR peripherals
    (OTV0P2BASE_PowerManagement.h) *)

Module PowerManagement.

(** Bit numbers of the absent <avr/io.h> and the CPU clock the build is
    configured for. *)
Class AVRTarget : Type := {
  PRSPI : Z;
  PRADC : Z;
  PRUSART0 : Z;
  SPE : Z;
  MSTR : Z;
  SPR0 : Z;
  SPI2X : Z;
  ADEN : Z;
  F_CPU : Z
}.

Definition _BV (bit : Z) : Z := Z.shiftl 1 bit.

Inductive pin_mode : Type := INPUT | OUTPUT | INPUT_PULLUP.

(** Calls made into the Arduino core, in the order they happen. *)
Inductive io_call : Type :=
| fastDigitalWrite (pin : Z) (high : bool)
| pinMode (pin : Z) (mode : pin_mode)
| Serial_begin (baud : Z).

(** The registers the power routines touch and the core calls made so
    far (oldest first). *)
Record AVR : Type := mkAVR {
  PRR : Z;
  SPCR : Z;
  SPSR : Z;
  ADCSRA : Z;
  calls : list io_call
}.

(** [reg &= ~_BV(bit)] on an 8-bit register. *)
Definition clearBit (reg bit : Z) : Z :=
  U8.wrap (Z.land reg (Z.lnot (_BV bit))).

(** [reg |= _BV(bit)] on an 8-bit register. *)
Definition setBit (reg bit : Z) : Z :=
  U8.wrap (Z.lor reg (_BV bit)).

(** [reg & _BV(bit)] read as a condition. *)
Definition bitIsSet (reg bit : Z) : bool :=
  negb (Z.land reg (_BV bit) =? 0).

(** [powerDownADC] (AVR variant). *)
Definition powerDownADC {target : AVRTarget} (h : AVR) : AVR :=
  mkAVR (setBit (PRR h) PRADC) (SPCR h) (SPSR h)
    (clearBit (ADCSRA h) ADEN) (calls h).

(** [t_powerUpSPIIfDisabled<SPI_nSS, slowSPI>]. *)
Definition t_powerUpSPIIfDisabled {target : AVRTarget} (SPI_nSS : Z)
  (slowSPI : bool) (h : AVR) : bool * AVR :=
  if negb (bitIsSet (PRR h) PRSPI) then (false, h)
  else
    let ENABLE_MASTER := U8.wrap (Z.lor (_BV SPE) (_BV MSTR)) in
    let io := calls h ++ [fastDigitalWrite SPI_nSS true;
                          pinMode SPI_nSS OUTPUT] in
    let prr := clearBit (PRR h) PRSPI in
    if F_CPU <=? 2000000 then
      (true,
       mkAVR prr ENABLE_MASTER
         (if negb slowSPI then U8.wrap (_BV SPI2X) else SPSR h)
         (ADCSRA h) io)
    else if F_CPU <=? 8000000 then
      (true, mkAVR prr ENABLE_MASTER 0 (ADCSRA h) io)
    else
      (true,
       mkAVR prr (U8.wrap (Z.lor (_BV SPR0) ENABLE_MASTER))
         (U8.wrap (_BV SPI2X)) (ADCSRA h) io).

(** [t_powerDownSPI<SPI_nSS, SPI_SCK, SPI_MOSI, SPI_MISO, slowSPI>]. *)
Definition t_powerDownSPI {target : AVRTarget}
  (SPI_nSS SPI_SCK SPI_MOSI SPI_MISO : Z) (h : AVR) : AVR :=
  mkAVR (setBit (PRR h) PRSPI) (clearBit (SPCR h) SPE) (SPSR h) (ADCSRA h)
    (calls h ++ [fastDigitalWrite SPI_nSS true;
                 pinMode SPI_nSS OUTPUT;
                 pinMode SPI_SCK OUTPUT;
                 pinMode SPI_MOSI OUTPUT;
                 pinMode SPI_MISO INPUT_PULLUP]).

(** [RAII_SPIPowerUpSPIIfDisabled]: the constructor yields the object's
    one member, [neededEnable]. *)
Definition RAII_SPIPowerUpSPIIfDisabled_ctor {target : AVRTarget}
  (SPI_nSS : Z) (slowSPI : bool) (h : AVR) : bool * AVR :=
  t_powerUpSPIIfDisabled SPI_nSS slowSPI h.

(** The destructor. *)
Definition RAII_SPIPowerUpSPIIfDisabled_dtor {target : AVRTarget}
  (SPI_nSS SPI_SCK SPI_MOSI SPI_MISO : Z) (neededEnable : bool) (h : AVR)
  : AVR :=
  if neededEnable then t_powerDownSPI SPI_nSS SPI_SCK SPI_MOSI SPI_MISO h
  else h.

(** A scope that holds the RAII object and runs [body] in between. *)
Definition withSPI {target : AVRTarget}
  (SPI_nSS SPI_SCK SPI_MOSI SPI_MISO : Z) (slowSPI : bool)
  (body : AVR -> AVR) (h : AVR) : AVR :=
  let '(neededEnable, h1) :=
    RAII_SPIPowerUpSPIIfDisabled_ctor SPI_nSS slowSPI h in
  RAII_SPIPowerUpSPIIfDisabled_dtor SPI_nSS SPI_SCK SPI_MOSI SPI_MISO
    neededEnable (body h1).

(** [_serialIsPoweredUp]. *)
Definition _serialIsPoweredUp {target : AVRTarget} (h : AVR) : bool :=
  negb (bitIsSet (PRR h) PRUSART0).

(** [powerUpSerialIfDisabled<baud>]. *)
Definition powerUpSerialIfDisabled {target : AVRTarget} (baud : Z) (h : AVR)
  : bool * AVR :=
  if _serialIsPoweredUp h then (false, h)
  else
    (true,
     mkAVR (clearBit (PRR h) PRUSART0) (SPCR h) (SPSR h) (ADCSRA h)
       (calls h ++ [Serial_begin baud])).

End PowerManagement.

(** ** Occupancy pseudo-sensor (OTV0P2BASE_SensorOccupancy.cpp) *)

Module SensorOccupancy.
Import OTV0P2BASE.

(** What the absent OTV0P2BASE_SensorOccupancy.h and the platform
    supply: the time-out constants, the vacancy threshold, the atomic
    decrement helper and the width of [unsigned int]. *)
Class OccupancyHeader : Type := {
  OCCUPATION_TIMEOUT_M : Z;
  NEW_OCCUPANCY_TIMEOUT_M : Z;
  OCCUPATION_TIMEOUT_LIKELY_M : Z;
  OCCUPATION_TIMEOUT_MAYBE_M : Z;
  weakVacantHThrH : Z;
  safeDecIfNZWeak : Z -> Z;
  UINT_BITS : Z
}.

(** What the name of [safeDecIfNZWeak] and the comment at its call site
    say it does when nothing interferes. *)
Definition decrementsIfNonZero (dec : Z -> Z) : Prop :=
  forall v : Z, dec v = if v =? 0 then 0 else v - 1.

Definition unsignedWrap {hdr : OccupancyHeader} (z : Z) : Z :=
  z mod 2 ^ UINT_BITS.

Definition OCCCP_SHIFT {hdr : OccupancyHeader} : Z :=
  if OCCUPATION_TIMEOUT_M <=? 3 then 5
  else if OCCUPATION_TIMEOUT_M <=? 6 then 4
  else if OCCUPATION_TIMEOUT_M <=? 12 then 3
  else if OCCUPATION_TIMEOUT_M <=? 25 then 2
  else if OCCUPATION_TIMEOUT_M <=? 50 then 1
  else if OCCUPATION_TIMEOUT_M <=? 100 then 0
  else if OCCUPATION_TIMEOUT_M <=? 200 then -1
  else -2.

Record PseudoSensorOccupancyTracker : Type := mkTracker {
  value : Z;
  occupationCountdownM : Z;
  newOccupancyCountdownM : Z;
  vacancyM : Z;
  vacancyH : Z
}.

(** The percentage computed by [read] from the countdown snapshot:
    [100U - uint8_t(...)] is unsigned arithmetic, the result is narrowed
    to [uint8_t]. *)
Definition confidence {hdr : OccupancyHeader} (ocM : Z) : Z :=
  if 0 =? ocM then 0
  else
    U8.wrap
      (fnmin 100
         (unsignedWrap
            (100 - U8.wrap (Z.shiftl (OCCUPATION_TIMEOUT_M - ocM)
                              OCCCP_SHIFT)))).

(** [PseudoSensorOccupancyTracker::read]: the value returned and the
    object afterwards. *)
Definition read {hdr : OccupancyHeader} (t : PseudoSensorOccupancyTracker)
  : Z * PseudoSensorOccupancyTracker :=
  let oc := safeDecIfNZWeak (occupationCountdownM t) in
  let noc := safeDecIfNZWeak (newOccupancyCountdownM t) in
  let ocM := oc in
  let vacancy :=
    if 0 <? ocM then (0, 0)
    else if vacancyH t <? 255 then
      let m := U8.wrap (vacancyM t + 1) in
      if 60 <=? m then (0, U8.wrap (vacancyH t + 1)) else (m, vacancyH t)
    else (vacancyM t, vacancyH t) in
  let newValue := confidence ocM in
  (newValue, mkTracker newValue oc noc (fst vacancy) (snd vacancy)).

(** [PseudoSensorOccupancyTracker::markAsOccupied]. *)
Definition markAsOccupied {hdr : OccupancyHeader}
  (t : PseudoSensorOccupancyTracker) : PseudoSensorOccupancyTracker :=
  mkTracker 100 OCCUPATION_TIMEOUT_M
    (if 0 =? occupationCountdownM t then NEW_OCCUPANCY_TIMEOUT_M
     else newOccupancyCountdownM t)
    (vacancyM t) (vacancyH t).

(** [PseudoSensorOccupancyTracker::markAsPossiblyOccupied], with nothing
    else touching the countdown between the load and the exchange. *)
Definition markAsPossiblyOccupied {hdr : OccupancyHeader}
  (t : PseudoSensorOccupancyTracker) : PseudoSensorOccupancyTracker :=
  let ocM := occupationCountdownM t in
  mkTracker (value t)
    (fnmax ocM (U8.wrap OCCUPATION_TIMEOUT_LIKELY_M))
    (if 0 =? ocM then NEW_OCCUPANCY_TIMEOUT_M else newOccupancyCountdownM t)
    (vacancyM t) (vacancyH t).

(** [PseudoSensorOccupancyTracker::markAsJustPossiblyOccupied], likewise. *)
Definition markAsJustPossiblyOccupied {hdr : OccupancyHeader}
  (t : PseudoSensorOccupancyTracker) : PseudoSensorOccupancyTracker :=
  if weakVacantHThrH <? vacancyH t then t
  else
    let ocM := occupationCountdownM t in
    mkTracker (value t)
      (fnmax ocM (U8.wrap OCCUPATION_TIMEOUT_MAYBE_M))
      (newOccupancyCountdownM t) (vacancyM t) (vacancyH t).

(** [n] polls in a row. *)
Fixpoint reads {hdr : OccupancyHeader} (n : nat)
  (t : PseudoSensorOccupancyTracker) : PseudoSensorOccupancyTracker :=
  match n with
  | O => t
  | S k => reads k (snd (read t))
  end.

(** Minutes of vacancy recorded by the two counters. *)
Definition vacancyMinutes (t : PseudoSensorOccupancyTracker) : Z :=
  60 * vacancyH t + vacancyM t.

End SensorOccupancy.

(** ** Logged temperature samples of the valve tests *)

Module DataSamples.

(** [C16DataSample], without the expected-event member. *)
Record C16DataSample : Type := mkSample {
  d : Z;
  H : Z;
  M : Z;
  tC : Z;
  C16 : Z
}.

(** The terminating entry built by the default constructor; [~0] is
    narrowed to [int16_t], giving -1. *)
Definition endSample : C16DataSample := mkSample 255 255 255 255 (-1).

Definition currentMinute (s : C16DataSample) : Z :=
  (((d s * 24) + H s) * 60) + M s.

Definition isEnd (s : C16DataSample) : bool := 31 <? d s.

End DataSamples.

(** ** The operations of the proportional driver

    Every member function of [CurrentSenseValveMotorDirect] and of its
    base class whose body the header gives and that can change the
    object, as one type, so that a property can range over all of
    them. *)

Module DriverOperations.
Import OTRadValve.






End DriverOperations.

(** ** More sample instances *)

Module MoreSamples.
Import PowerManagement SensorOccupancy.

(** The ATmega328P bit numbers and a 1MHz clock. *)
Definition atmega328p : AVRTarget := {|
  PRSPI := 2; PRADC := 0; PRUSART0 := 1;
  SPE := 6; MSTR := 4; SPR0 := 0; SPI2X := 0; ADEN := 7;
  F_CPU := 1000000
|}.

Definition asleep : AVR := mkAVR 255 0 0 0 [].
Definition spiRunning : AVR := mkAVR 0 80 1 128 [].

Definition occupancyHeader : OccupancyHeader := {|
  OCCUPATION_TIMEOUT_M := 50;
  NEW_OCCUPANCY_TIMEOUT_M := 4;
  OCCUPATION_TIMEOUT_LIKELY_M := 25;
  OCCUPATION_TIMEOUT_MAYBE_M := 12;
  weakVacantHThrH := 2;
  safeDecIfNZWeak := fun v => if v =? 0 then 0 else v - 1;
  UINT_BITS := 16
|}.

Definition vacantRoom : PseudoSensorOccupancyTracker := mkTracker 0 0 0 59 3.

End MoreSamples.

(** * Properties *)

Import OTV0P2BASE OTRadValve.

(** ** The utility templates *)

Lemma fnmin_min (a b : Z) : fnmin a b = Z.min a b.
Proof. unfold fnmin. destruct (Z.ltb_spec b a); lia. Qed.

Lemma fnabsdiff_abs (a b : Z) : fnabsdiff a b = Z.abs (a - b).
Proof. unfold fnabsdiff. destruct (Z.ltb_spec a b); lia. Qed.

Lemma fnconstrain_bounds (x l h : Z) :
  l <= h -> l <= fnconstrain x l h <= h.
Proof.
  intros Hlh. unfold fnconstrain.
  destruct (Z.ltb_spec x l); [lia|].
  destruct (Z.ltb_spec h x); lia.
Qed.

Lemma fnconstrain_inside (x l h : Z) :
  l <= x <= h -> fnconstrain x l h = x.
Proof.
  intros Hx. unfold fnconstrain.
  destruct (Z.ltb_spec x l); [lia|].
  destruct (Z.ltb_spec h x); lia.
Qed.

(** ** The scratch union *)

Lemma PerState_byte_zeroed (p : PerState.t) (off : nat) :
  PerState.byte (PerState.zeroed p) off = 0.
Proof. unfold PerState.byte, PerState.zeroed. apply nth_repeat. Qed.

Lemma PerState_zeroed_allClear (p : PerState.t) :
  PerState.allClear (PerState.zeroed p).
Proof.
  unfold PerState.allClear,
    PerState.initWaiting_ticksWaited,
    PerState.valveCalibrating_ticksFromOpenToClosed,
    PerState.valveCalibrating_ticksFromClosedToOpen,
    PerState.valveCalibrating_calibState,
    PerState.valveCalibrating_wallclock2sTicks,
    PerState.valveCalibrating_endStopHitCount,
    PerState.valvePinWithdrawing_wallclock2sTicks,
    PerState.valvePinWithdrawing_endStopHitCount,
    PerState.valvePinWithdrawn_valveFitted,
    PerState.valveNormal_endStopHitCount, PerState.half.
  rewrite !PerState_byte_zeroed. repeat split; reflexivity.
Qed.

Lemma PerState_zeroed_Forall (p : PerState.t) :
  Forall (fun b => b = 0) (PerState.zeroed p).
Proof.
  unfold PerState.zeroed. induction (length p); simpl; constructor; auto.
Qed.

Lemma clearPerState_perState (d : CurrentSenseValveMotorDirectBinaryOnly) :
  perState (clearPerState d) = PerState.zeroed (perState d).
Proof.
  unfold clearPerState.
  destruct (Z.ltb_spec 0 (Z.of_nat (length (perState d)))) as [Hpos|Hzero].
  - reflexivity.
  - destruct (perState d) as [|x q]; [reflexivity|].
    simpl length in Hzero. lia.
Qed.

Lemma clearPerState_frame (d : CurrentSenseValveMotorDirectBinaryOnly) :
  state (clearPerState d) = state d /\
  endStopDetected (clearPerState d) = endStopDetected d /\
  currentPC (clearPerState d) = currentPC d /\
  targetPC (clearPerState d) = targetPC d /\
  sctAbsLimit (clearPerState d) = sctAbsLimit d /\
  minMotorDRTicks (clearPerState d) = minMotorDRTicks d.
Proof.
  unfold clearPerState.
  destruct (0 <? Z.of_nat (length (perState d))); repeat split; reflexivity.
Qed.


(** A flag raised by [signalValveFitted] while waiting for the valve is
    genuinely stored in the union's first byte. *)
Lemma signalValveFitted_sets_flag (d : CurrentSenseValveMotorDirectBinaryOnly) :
  state d = valvePinWithdrawn -> perState d <> [] ->
  PerState.valvePinWithdrawn_valveFitted (perState (signalValveFitted d)) = true.
Proof.
  intros Hs Hp. unfold signalValveFitted, isWaitingForValveToBeFitted.
  rewrite Hs. simpl. destruct (perState d) as [|x q]; [contradiction|].
  reflexivity.
Qed.

Lemma driverState_eqb_eq (a b : driverState) :
  driverState_eqb a b = true <-> a = b.
Proof.
  unfold driverState_eqb. rewrite Z.eqb_eq.
  split; [|intros ->; reflexivity].
  destruct a, b; simpl; intros E; try reflexivity; discriminate E.
Qed.

Section MotorDriver.
Context {params : Parameters} {code : OutOfLineCode}.

(** C1: for percentages [targetPC] and [currentPC] in [0,100],
    [closeEnoughToTarget targetPC currentPC] is true exactly when the two
    are equal, or they differ by at most [absTolerancePC] (11), or the
    target is strictly below [DEFAULT_VALVE_PC_SAFER_OPEN] and the current
    value is at or below the target, or the target is at or above
    [DEFAULT_VALVE_PC_SAFER_OPEN] and the current value is at or above the
    target. *)
Theorem closeEnoughToTarget_iff (targetPC currentPC : Z) :
  0 <= targetPC <= 100 -> 0 <= currentPC <= 100 ->
  (closeEnoughToTarget targetPC currentPC = true <->
   (targetPC = currentPC \/
    Z.abs (targetPC - currentPC) <= 11 \/
    (targetPC < DEFAULT_VALVE_PC_SAFER_OPEN /\ currentPC <= targetPC) \/
    (DEFAULT_VALVE_PC_SAFER_OPEN <= targetPC /\ targetPC <= currentPC))).
Proof.
  intros Ht Hc. unfold closeEnoughToTarget, absTolerancePC.
  rewrite fnabsdiff_abs.
  rewrite !orb_true_iff, !andb_true_iff.
  rewrite Z.eqb_eq, !Z.leb_le, Z.ltb_lt.
  tauto.
Qed.

(** The same characterisation holds over the whole [uint8_t] range. *)
Lemma closeEnoughToTarget_uint8 (targetPC currentPC : Z) :
  U8.inRange targetPC -> U8.inRange currentPC ->
  (closeEnoughToTarget targetPC currentPC = true <->
   (targetPC = currentPC \/
    Z.abs (targetPC - currentPC) <= absTolerancePC \/
    (targetPC < DEFAULT_VALVE_PC_SAFER_OPEN /\ currentPC <= targetPC) \/
    (DEFAULT_VALVE_PC_SAFER_OPEN <= targetPC /\ targetPC <= currentPC))).
Proof.
  intros _ _. unfold closeEnoughToTarget.
  rewrite fnabsdiff_abs.
  rewrite !orb_true_iff, !andb_true_iff.
  rewrite Z.eqb_eq, !Z.leb_le, Z.ltb_lt.
  tauto.
Qed.

(** Without calibration in place the intermediate position is left
    alone. *)
Lemma recomputeIntermediatePosition_uncalibrated
  (d : CurrentSenseValveMotorDirect) :
  needsRecalibrating d = true -> recomputeIntermediatePosition d = d.
Proof.
  intros Hn. simpl. unfold proportional_recomputeIntermediatePosition.
  rewrite Hn. reflexivity.
Qed.

(** Dead reckoning never writes an end-stop value: if the position after
    [recomputeIntermediatePosition] is 0 or 100 then it is the one that was
    there before. *)
Lemma recomputeIntermediatePosition_keeps_endstop
  (d : CurrentSenseValveMotorDirect) :
  isAtEndstop (currentPC (super (recomputeIntermediatePosition d))) = true ->
  currentPC (super (recomputeIntermediatePosition d)) = currentPC (super d).
Proof.
  simpl. unfold proportional_recomputeIntermediatePosition.
  destruct (needsRecalibrating d); simpl; [reflexivity|].
  destruct (computePosition (cp d) (ticksFromOpen d) (ticksReverse d))
    as [pos [tfo tr]]. simpl.
  pose proof (fnconstrain_bounds pos 1 99 ltac:(lia)) as Hb.
  unfold isAtEndstop. rewrite orb_true_iff, !Z.eqb_eq. lia.
Qed.




(** C7: [inNonProportionalMode] is true exactly when [needsRecalibrating]
    is set or [cannotRunProportional] holds; [cannotRunProportional] holds
    exactly when [approxPrecisionPC] is strictly above
    [max_usuable_precision] (15); a freshly constructed driver has
    [needsRecalibrating] set and precision [bad_precision] (100), and is in
    non-proportional mode. *)
Theorem inNonProportionalMode_iff :
  (forall d : CurrentSenseValveMotorDirect,
     inNonProportionalMode d = true <->
     needsRecalibrating d = true \/
     CalibrationParameters.cannotRunProportional (cp d) = true)
  /\ (forall c : CalibrationParameters.t,
        CalibrationParameters.cannotRunProportional c = true <->
        15 < CalibrationParameters.approxPrecisionPC c)
  /\ (forall (_minMotorDRTicks _sctAbsLimit : Z) (scratch : PerState.t)
             (tfo tr : Z),
        let d := newProportional _minMotorDRTicks _sctAbsLimit scratch tfo tr in
        needsRecalibrating d = true
        /\ CalibrationParameters.approxPrecisionPC (cp d) = 100
        /\ CalibrationParameters.cannotRunProportional (cp d) = true
        /\ inNonProportionalMode d = true).
Proof.
  split; [|split].
  - intros d. unfold inNonProportionalMode. apply orb_true_iff.
  - intros c. unfold CalibrationParameters.cannotRunProportional,
      CalibrationParameters.max_usuable_precision.
    apply Z.ltb_lt.
  - intros m l scratch tfo tr. repeat split; reflexivity.
Qed.

(** C8: for every [uint8_t] input [newPC], values above 100 included,
    [setTargetPC newPC] leaves [targetPC] equal to [min newPC 100], within
    [0,100]; the operation is total and touches nothing else. *)
Theorem setTargetPC_coerces (newPC : Z)
  (d : CurrentSenseValveMotorDirectBinaryOnly) :
  U8.inRange newPC ->
  targetPC (setTargetPC newPC d) = Z.min newPC 100
  /\ 0 <= targetPC (setTargetPC newPC d) <= 100
  /\ state (setTargetPC newPC d) = state d
  /\ perState (setTargetPC newPC d) = perState d
  /\ endStopDetected (setTargetPC newPC d) = endStopDetected d
  /\ currentPC (setTargetPC newPC d) = currentPC d.
Proof.
  unfold U8.inRange, U8.modulus. intros Hr. simpl.
  rewrite fnmin_min. repeat split; lia.
Qed.

(** C9: [changeState newState] installs the new major state and zeroes
    every byte of the per-state scratch union, so every field of every
    member (wallclock tick counts, end-stop hit counts, calibration
    sub-state and tick counts, the valve-fitted flag) reads zero whatever
    the union held before; the other members of the driver are
    untouched. *)
Theorem changeState_clears_perState (newState : driverState)
  (d : CurrentSenseValveMotorDirectBinaryOnly) :
  let d' := changeState newState d in
  state d' = newState
  /\ perState d' = repeat 0 (length (perState d))
  /\ Forall (fun b => b = 0) (perState d')
  /\ PerState.allClear (perState d')
  /\ endStopDetected d' = endStopDetected d
  /\ currentPC d' = currentPC d
  /\ targetPC d' = targetPC d.
Proof.
  unfold changeState.
  set (d0 := mkBinaryOnly _ _ newState _ _ _ _).
  destruct (clearPerState_frame d0) as (Hs & He & Hc & Ht & _).
  pose proof (clearPerState_perState d0) as Hp. simpl.
  split; [exact Hs|]. split; [exact Hp|].
  split; [rewrite Hp; apply PerState_zeroed_Forall|].
  split; [rewrite Hp; apply PerState_zeroed_allClear|].
  repeat split; assumption.
Qed.

End MotorDriver.

(** C10: for either driver class, [isControlledValveReallyOpen] is true
    exactly when the state is [valveNormal] and [currentPC] is at least
    [getMinPercentOpen]; in each of [init], [initWaiting],
    [valvePinWithdrawing], [valvePinWithdrawn], [valveCalibrating],
    [valveDecalcinating] and [valveError] it is false. *)
Theorem isControlledValveReallyOpen_iff {D : Type} {drv : ValveDriver D}
  (d : D) :
  (isControlledValveReallyOpen d = true <->
   state (base d) = valveNormal /\ getMinPercentOpen d <= currentPC (base d))
  /\ match state (base d) with
     | valveNormal =>
         isControlledValveReallyOpen d =
           (getMinPercentOpen d <=? currentPC (base d))
     | init | initWaiting | valvePinWithdrawing | valvePinWithdrawn
     | valveCalibrating | valveDecalcinating | valveError =>
         isControlledValveReallyOpen d = false
     end.
Proof.
  unfold isControlledValveReallyOpen, isInNormalRunState. split.
  - rewrite andb_true_iff, driverState_eqb_eq, Z.leb_le. reflexivity.
  - destruct (state (base d)); reflexivity.
Qed.

(** ** The control tick *)

Section ControlTick.
Import ModelledRadValve.
Context {params : Parameters} {tuning : Tuning}.

Lemma computeRequiredTRVPercentOpen_range (valvePCOpen : Z)
  (i : ModelledRadValveInputState) (s : ModelledRadValveState) :
  0 <= computeRequiredTRVPercentOpen valvePCOpen i s <= 100.
Proof.
  unfold computeRequiredTRVPercentOpen.
  destruct (inBakeMode i); [lia|].
  apply fnconstrain_bounds. lia.
Qed.

(** A tick never leaves the percentage outside [0,100]. *)
Lemma tick_range (valvePCOpen : Z) (i : ModelledRadValveInputState)
  (backing : option RadValveMock) (s : ModelledRadValveState) :
  0 <= tickPC (tick valvePCOpen i backing s) <= 100.
Proof. apply computeRequiredTRVPercentOpen_range. Qed.

(** A backing valve that is supplied ends up commanded to the new
    percentage. *)
Lemma tick_backing (valvePCOpen : Z) (i : ModelledRadValveInputState)
  (v : RadValveMock) (s : ModelledRadValveState) :
  snd (tick valvePCOpen i (Some v) s) =
    Some (mkRadValveMock (tickPC (tick valvePCOpen i (Some v) s))).
Proof.
  pose proof (tick_range valvePCOpen i (Some v) s) as Hr.
  unfold tick, tickPC in *. simpl in *. f_equal.
  unfold RadValveMock_set, isValid.
  destruct (Z.leb_spec
    (computeRequiredTRVPercentOpen valvePCOpen i
       (mkState (cumulativeMovementPC s)
          (filteringDecision
             (pushTemperature (refTempC16 i) (prevRawTempC16 s))
             (isFiltering s))
          (pushTemperature (refTempC16 i) (prevRawTempC16 s))
          (turnupLockoutTicks s) (turndownLockoutTicks s))) 100);
    [reflexivity|lia].
Qed.

Lemma tick_cumulativeMovementPC (valvePCOpen : Z)
  (i : ModelledRadValveInputState) (backing : option RadValveMock)
  (s : ModelledRadValveState) :
  cumulativeMovementPC (tickState (tick valvePCOpen i backing s)) =
    cumulativeMovementPC s
    + Z.abs (tickPC (tick valvePCOpen i backing s) - valvePCOpen).
Proof.
  unfold tick, tickState, tickPC. simpl. rewrite fnabsdiff_abs. reflexivity.
Qed.

Lemma ticks_cumulativeMovementPC_mono
  (inputs : list ModelledRadValveInputState) :
  forall (valvePCOpen : Z) (s : ModelledRadValveState),
    cumulativeMovementPC s <=
    cumulativeMovementPC (snd (ticks inputs valvePCOpen s)).
Proof.
  induction inputs as [|i rest IH]; intros pc s; simpl; [lia|].
  specialize (IH (tickPC (tick pc i None s)) (tickState (tick pc i None s))).
  rewrite tick_cumulativeMovementPC in IH. lia.
Qed.

(** Over a run that never rises, the movement added is the drop. *)
Lemma closingRun_distance (inputs : list ModelledRadValveInputState) :
  forall (valvePCOpen : Z) (s : ModelledRadValveState),
    closingRun valvePCOpen (percentages inputs valvePCOpen s) ->
    cumulativeMovementPC (snd (ticks inputs valvePCOpen s)) =
      cumulativeMovementPC s
      + (valvePCOpen - fst (ticks inputs valvePCOpen s)).
Proof.
  induction inputs as [|i rest IH]; intros pc s Hrun; simpl in *; [lia|].
  destruct Hrun as [Hstep Hrest].
  rewrite (IH _ _ Hrest), tick_cumulativeMovementPC. lia.
Qed.

(** Over a run that never falls, the movement added is the rise. *)
Lemma openingRun_distance (inputs : list ModelledRadValveInputState) :
  forall (valvePCOpen : Z) (s : ModelledRadValveState),
    openingRun valvePCOpen (percentages inputs valvePCOpen s) ->
    cumulativeMovementPC (snd (ticks inputs valvePCOpen s)) =
      cumulativeMovementPC s
      + (fst (ticks inputs valvePCOpen s) - valvePCOpen).
Proof.
  induction inputs as [|i rest IH]; intros pc s Hrun; simpl in *; [lia|].
  destruct Hrun as [Hstep Hrest].
  rewrite (IH _ _ Hrest), tick_cumulativeMovementPC. lia.
Qed.

(** C3: with BAKE active, one tick from any starting percentage with the
    turn-up lockout armed leaves the valve at exactly 100 and the
    turn-down lockout armed (the reclose delay being a positive number of
    ticks). *)
Theorem tick_BAKE_forces_open (valvePCOpen : Z)
  (i : ModelledRadValveInputState) (backing : option RadValveMock)
  (s : ModelledRadValveState) :
  0 < DEFAULT_ANTISEEK_VALVE_RECLOSE_DELAY_M ->
  dontTurnup s = true ->
  inBakeMode i = true ->
  tickPC (tick valvePCOpen i backing s) = 100
  /\ dontTurndown (tickState (tick valvePCOpen i backing s)) = true.
Proof.
  intros Hdelay _ Hbake.
  unfold tick, tickPC, tickState, computeRequiredTRVPercentOpen, dontTurndown.
  simpl. rewrite Hbake. simpl. split; [reflexivity|].
  apply Z.ltb_lt. exact Hdelay.
Qed.

(** C5: with no backing valve every tick adds exactly [|newPC - oldPC|]
    to [cumulativeMovementPC], which therefore never decreases; and when
    the valve is driven from 100 down to 0 and then back up to 100, each
    way without reversing, the counter has grown by exactly 200 (so reads
    200 when it started from 0). *)
Theorem cumulativeMovementPC_two_traversals
  (closing opening : list ModelledRadValveInputState)
  (s : ModelledRadValveState) :
  let down := ticks closing 100 s in
  let up := ticks opening (fst down) (snd down) in
  closingRun 100 (percentages closing 100 s) ->
  fst down = 0 ->
  openingRun (fst down) (percentages opening (fst down) (snd down)) ->
  fst up = 100 ->
  (forall (pc : Z) (i : ModelledRadValveInputState)
          (st : ModelledRadValveState),
      cumulativeMovementPC (tickState (tick pc i None st)) =
        cumulativeMovementPC st + Z.abs (tickPC (tick pc i None st) - pc)
      /\ cumulativeMovementPC st <=
         cumulativeMovementPC (tickState (tick pc i None st)))
  /\ (forall (inputs : list ModelledRadValveInputState) (pc : Z)
             (st : ModelledRadValveState),
        cumulativeMovementPC st <=
        cumulativeMovementPC (snd (ticks inputs pc st)))
  /\ cumulativeMovementPC (snd up) = cumulativeMovementPC s + 200
  /\ (cumulativeMovementPC s = 0 -> cumulativeMovementPC (snd up) = 200).
Proof.
  intros down up Hclosing Hclosed Hopening Hopen.
  pose proof (closingRun_distance _ _ _ Hclosing) as Hdrop.
  pose proof (openingRun_distance _ _ _ Hopening) as Hrise.
  subst up down.
  assert (Htotal :
    cumulativeMovementPC
      (snd (ticks opening (fst (ticks closing 100 s))
              (snd (ticks closing 100 s)))) =
    cumulativeMovementPC s + 200) by lia.
  split; [|split; [|split]].
  - intros pc i st. rewrite tick_cumulativeMovementPC. split; lia.
  - intros inputs pc st. apply ticks_cumulativeMovementPC_mono.
  - exact Htotal.
  - intros Hzero. rewrite Htotal, Hzero. reflexivity.
Qed.

End ControlTick.

(** * Worked instances *)

Module Instances.
Import ModelledRadValve Samples.

Example closeEnoughToTarget_sample :
  closeEnoughToTarget (H := parameters) 60 80 = true /\
  closeEnoughToTarget (H := parameters) 60 40 = false /\
  closeEnoughToTarget (H := parameters) 40 20 = true /\
  closeEnoughToTarget (H := parameters) 40 60 = false /\
  closeEnoughToTarget (H := parameters) 40 51 = true.
Proof. repeat split; reflexivity. Qed.

Lemma closeEnoughToTarget_iff_witness :
  0 <= 40 <= 100 /\ 0 <= 60 <= 100 /\
  (closeEnoughToTarget (H := parameters) 40 60 = true <->
   (40 = 60 \/
    Z.abs (40 - 60) <= 11 \/
    (40 < DEFAULT_VALVE_PC_SAFER_OPEN (Parameters := parameters) /\ 60 <= 40) \/
    (DEFAULT_VALVE_PC_SAFER_OPEN (Parameters := parameters) <= 40 /\ 40 <= 60))).
Proof.
  split; [lia|]. split; [lia|].
  apply (@closeEnoughToTarget_iff parameters 40 60); lia.
Defined.

Example recomputeIntermediatePosition_sample :
  currentPC (super (recomputeIntermediatePosition (ValveDriver := Proportional_driver (H := outOfLine))
                      (runningDriver 100 0))) = 75 /\
  currentPC (super (recomputeIntermediatePosition (ValveDriver := Proportional_driver (H := outOfLine))
                      (runningDriver 0 0))) = 99 /\
  currentPC (super (recomputeIntermediatePosition (ValveDriver := Proportional_driver (H := outOfLine))
                      (runningDriver 400 0))) = 1.
Proof. repeat split; reflexivity. Qed.


Lemma setTargetPC_coerces_witness :
  U8.inRange 200 /\
  targetPC (setTargetPC 200 (super (runningDriver 0 0))) = 100.
Proof.
  assert (Hr : U8.inRange 200) by (unfold U8.inRange, U8.modulus; lia).
  split; [exact Hr|].
  destruct (setTargetPC_coerces 200 (super (runningDriver 0 0)) Hr)
    as [Ht _].
  exact Ht.
Defined.

Example changeState_sample :
  perState (changeState valveCalibrating
              (signalValveFitted
                 (changeState valvePinWithdrawn (super (runningDriver 0 0)))))
  = [0; 0; 0; 0; 0; 0; 0; 0]
  /\ perState (signalValveFitted
                 (changeState valvePinWithdrawn (super (runningDriver 0 0))))
  = [1; 0; 0; 0; 0; 0; 0; 0].
Proof. split; reflexivity. Qed.

Lemma tick_BAKE_forces_open_witness :
  0 < DEFAULT_ANTISEEK_VALVE_RECLOSE_DELAY_M (Parameters := parameters) /\
  dontTurnup (mkState 100 false [288; 288] 4 0) = true /\
  inBakeMode (room 32 true) = true /\
  tickPC (tick (H := parameters) (H0 := bangBang) 0 (room 32 true) None
            (mkState 100 false [288; 288] 4 0)) = 100.
Proof.
  assert (Hd : 0 < DEFAULT_ANTISEEK_VALVE_RECLOSE_DELAY_M
                     (Parameters := parameters)) by (simpl; lia).
  split; [exact Hd|]. split; [reflexivity|]. split; [reflexivity|].
  destruct (@tick_BAKE_forces_open parameters bangBang 0 (room 32 true) None
              (mkState 100 false [288; 288] 4 0) Hd eq_refl eq_refl)
    as [Hpc _].
  exact Hpc.
Defined.

Example ticks_sample :
  percentages (H := parameters) (H0 := bangBang)
    [room 10 false; room 10 false; room 10 false] 100 (freshState [288; 288])
    = [60; 20; 0]
  /\ percentages (H := parameters) (H0 := bangBang)
       [room 26 false; room 26 false; room 26 false] 0 (freshState [288; 288])
     = [40; 80; 100].
Proof. split; reflexivity. Qed.

Lemma cumulativeMovementPC_two_traversals_witness :
  cumulativeMovementPC
    (snd (ticks (H := parameters) (H0 := bangBang)
            [room 26 false; room 26 false; room 26 false]
            (fst (ticks (H := parameters) (H0 := bangBang)
                    [room 10 false; room 10 false; room 10 false] 100
                    (freshState [288; 288])))
            (snd (ticks (H := parameters) (H0 := bangBang)
                    [room 10 false; room 10 false; room 10 false] 100
                    (freshState [288; 288])))))
  = 200.
Proof.
  assert (Hdown : closingRun 100
            (percentages (H := parameters) (H0 := bangBang)
               [room 10 false; room 10 false; room 10 false] 100
               (freshState [288; 288]))).
  { vm_compute. repeat split; discriminate. }
  assert (Hup : openingRun 0
            (percentages (H := parameters) (H0 := bangBang)
               [room 26 false; room 26 false; room 26 false] 0
               (snd (ticks (H := parameters) (H0 := bangBang)
                       [room 10 false; room 10 false; room 10 false] 100
                       (freshState [288; 288]))))).
  { vm_compute. repeat split; discriminate. }
  destruct (@cumulativeMovementPC_two_traversals parameters bangBang
              [room 10 false; room 10 false; room 10 false]
              [room 26 false; room 26 false; room 26 false]
              (freshState [288; 288]) Hdown eq_refl Hup eq_refl)
    as (_ & _ & _ & Hzero).
  exact (Hzero eq_refl).
Defined.

End Instances.

(** * Further properties *)

(** Case analysis on every integer comparison in the goal. *)
Ltac split_comparisons :=
  repeat match goal with
  | |- context [Z.ltb ?a ?b] => destruct (Z.ltb_spec a b)
  | |- context [Z.leb ?a ?b] => destruct (Z.leb_spec a b)
  | |- context [Z.eqb ?a ?b] => destruct (Z.eqb_spec a b)
  end.

Lemma U8_wrap_small (z : Z) : 0 <= z < 256 -> U8.wrap z = z.
Proof. intros Hz. unfold U8.wrap, U8.modulus. apply Z.mod_small. exact Hz. Qed.

Lemma fnmax_max (a b : Z) : fnmax a b = Z.max a b.
Proof. unfold fnmax. destruct (Z.ltb_spec a b); lia. Qed.

(** Whatever the union held, every member view reads zero after
    [changeState]. *)
Lemma changeState_perState_allClear (newState : driverState)
  (d : CurrentSenseValveMotorDirectBinaryOnly) :
  PerState.allClear (perState (changeState newState d)).
Proof.
  unfold changeState. rewrite clearPerState_perState.
  apply PerState_zeroed_allClear.
Qed.

(** ** The motor driver *)

Section MotorDriverMore.
Import MotorTiming.
Context {params : Parameters}.

(** X1: [closeEnoughToTarget] is a one-sided tolerance band: for a target
    below [DEFAULT_VALVE_PC_SAFER_OPEN] it accepts exactly the current
    values up to [target + 11], for a target at or above the threshold
    exactly the values from [target - 11] upwards. *)
Theorem closeEnoughToTarget_band (targetPC currentPC : Z) :
  closeEnoughToTarget targetPC currentPC =
    (if targetPC <? DEFAULT_VALVE_PC_SAFER_OPEN
     then currentPC <=? targetPC + absTolerancePC
     else targetPC - absTolerancePC <=? currentPC).
Proof.
  unfold closeEnoughToTarget, fnabsdiff, absTolerancePC.
  split_comparisons; simpl; try reflexivity; lia.
Qed.

(** X2: for a tick length of 1 to 255 ms, [computeMinMotorDRTicks] is the
    largest whole number of ticks fitting into [minMotorDRMS] (250 ms),
    but never less than one tick: it lies in [1,250], the pulse it gives
    does not exceed 250 ms while the next longer one would, and a tick
    longer than 250 ms gives exactly one tick. *)
Theorem computeMinMotorDRTicks_bounds (ms : Z) :
  1 <= ms <= 255 ->
  let n := computeMinMotorDRTicks ms in
  1 <= n <= 250
  /\ (ms <= 250 -> n * ms <= 250 < (n + 1) * ms)
  /\ (250 < ms -> n = 1).
Proof.
  intros Hms. unfold computeMinMotorDRTicks, minMotorDRMS.
  rewrite Z.quot_div_nonneg by lia.
  assert (Hq : 0 <= 250 / ms <= 250).
  { split; [apply Z.div_pos; lia|].
    apply Z.div_le_upper_bound; nia. }
  rewrite U8_wrap_small by lia. rewrite fnmax_max.
  pose proof (Z.mul_div_le 250 ms ltac:(lia)) as Hlo.
  pose proof (Z.mul_succ_div_gt 250 ms ltac:(lia)) as Hhi.
  split; [lia|]. split.
  - intros Hle.
    assert (1 <= 250 / ms) by (apply Z.div_le_lower_bound; lia).
    rewrite Z.max_r by lia. lia.
  - intros Hgt. rewrite Z.div_small by lia. reflexivity.
Qed.

(** X3: when the quarter-cycle margin left after the motor run-up and the
    240 ms of enforced sleep is not negative, [computeSctAbsLimit] is
    [gcst_max] less that margin (less one tick when the margin is zero):
    strictly before the end of the sub-cycle and never earlier than a
    quarter cycle before it. *)
Theorem computeSctAbsLimit_in_last_quarter (ms gcst_max runup : Z) :
  1 <= ms -> 1 <= gcst_max <= 255 -> 0 <= runup ->
  0 <= sctMargin ms gcst_max runup ->
  computeSctAbsLimit ms gcst_max runup =
    gcst_max - Z.max 1 (sctMargin ms gcst_max runup)
  /\ gcst_max - Z.max 1 (Z.quot (gcst_max + 1) 4 - 1)
     <= computeSctAbsLimit ms gcst_max runup < gcst_max.
Proof.
  intros Hms Hg Hr Hm. unfold computeSctAbsLimit.
  unfold sctMargin in *.
  rewrite !Z.quot_div_nonneg in * by lia.
  assert (Hs : 0 <= 240 / ms) by (apply Z.div_pos; lia).
  assert (Hq : 0 <= (gcst_max + 1) / 4 <= 64).
  { split; [apply Z.div_pos; lia|].
    apply Z.div_le_upper_bound; lia. }
  assert (Hq' : 4 * ((gcst_max + 1) / 4) <= gcst_max + 1)
    by (apply Z.mul_div_le; lia).
  rewrite (U8_wrap_small ((gcst_max + 1) / 4 - runup - 1 - 240 / ms)) by lia.
  rewrite fnmax_max. rewrite U8_wrap_small by lia. lia.
Qed.

(** X4: when the run-up and sleep allowance exceed the quarter-cycle
    margin, so that the margin is negative, the cast to [uint8_t] wraps
    before the maximum with 1 is taken; the limit then comes out above
    [gcst_max] by the size of the shortfall instead of one tick below
    it. *)
Theorem computeSctAbsLimit_negative_margin (ms gcst_max runup : Z) :
  1 <= ms -> 0 <= gcst_max <= 255 ->
  -255 <= sctMargin ms gcst_max runup < 0 ->
  gcst_max - sctMargin ms gcst_max runup <= 255 ->
  computeSctAbsLimit ms gcst_max runup =
    gcst_max - sctMargin ms gcst_max runup
  /\ gcst_max < computeSctAbsLimit ms gcst_max runup.
Proof.
  intros Hms Hg Hm Hfit. unfold computeSctAbsLimit.
  set (m := sctMargin ms gcst_max runup) in *.
  assert (Hw : U8.wrap m = m + 256).
  { unfold U8.wrap, U8.modulus.
    symmetry. apply (Z.mod_unique m 256 (-1)); lia. }
  rewrite Hw, fnmax_max.
  assert (Hw2 : U8.wrap (gcst_max - Z.max 1 (m + 256)) = gcst_max - m).
  { unfold U8.wrap, U8.modulus.
    symmetry. apply (Z.mod_unique _ 256 (-1)); lia. }
  rewrite Hw2. lia.
Qed.

(** X5: [isInErrorState] holds exactly in [valveError], and the three
    state queries [isInNormalRunState], [isInErrorState] and
    [isWaitingForValveToBeFitted] never hold together. *)
Theorem driver_state_queries_exclusive
  (d : CurrentSenseValveMotorDirectBinaryOnly) :
  (isInErrorState d = true <-> state d = valveError)
  /\ isInNormalRunState d && isInErrorState d = false
  /\ isInNormalRunState d && isWaitingForValveToBeFitted d = false
  /\ isInErrorState d && isWaitingForValveToBeFitted d = false.
Proof.
  unfold isInErrorState, isInNormalRunState, isWaitingForValveToBeFitted,
    driverState_eqb.
  destruct (state d); simpl; repeat split; intros; try reflexivity;
    discriminate.
Qed.

(** X6: [signalValveFitted] is ignored outside [valvePinWithdrawn], so it
    cannot disturb scratch data of another state; while waiting for the
    valve it raises the [valveFitted] flag, signalling twice is the same
    as once, and the flag does not survive the next [changeState]. *)
Theorem signalValveFitted_guarded
  (d : CurrentSenseValveMotorDirectBinaryOnly) :
  (state d <> valvePinWithdrawn -> signalValveFitted d = d)
  /\ (state d = valvePinWithdrawn -> perState d <> [] ->
      PerState.valvePinWithdrawn_valveFitted
        (perState (signalValveFitted d)) = true
      /\ signalValveFitted (signalValveFitted d) = signalValveFitted d)
  /\ (forall newState : driverState,
        PerState.valvePinWithdrawn_valveFitted
          (perState (changeState newState (signalValveFitted d))) = false).
Proof.
  split; [|split].
  - intros Hs. unfold signalValveFitted, isWaitingForValveToBeFitted.
    destruct (driverState_eqb (state d) valvePinWithdrawn) eqn:E;
      [|reflexivity].
    apply driverState_eqb_eq in E. contradiction.
  - intros Hs Hp. split; [apply signalValveFitted_sets_flag; assumption|].
    unfold signalValveFitted, isWaitingForValveToBeFitted.
    rewrite Hs. simpl. destruct (perState d) as [|x q]; [contradiction|].
    reflexivity.
  - intros newState.
    destruct (changeState_perState_allClear newState (signalValveFitted d))
      as (_ & _ & _ & _ & _ & _ & _ & _ & Hflag & _).
    exact Hflag.
Qed.

(** X7: a freshly constructed driver of either class, whatever the
    constructor arguments and the previous content of its storage, is in
    [init] with clear scratch data; although [currentPC] starts at 100
    the valve is not reported as really open, nor in error, nor waiting
    for the valve; and with the call-for-heat threshold in [1,256] the
    initial target is one below it. *)
Theorem fresh_driver_state {code : OutOfLineCode}
  (_minMotorDRTicks _sctAbsLimit : Z) (scratch : PerState.t) (tfo tr : Z) :
  1 <= DEFAULT_VALVE_PC_SAFER_OPEN <= 256 ->
  let b := newBinaryOnly _minMotorDRTicks _sctAbsLimit scratch in
  let p := newProportional _minMotorDRTicks _sctAbsLimit scratch tfo tr in
  state b = init
  /\ PerState.allClear (perState b)
  /\ currentPC b = 100
  /\ targetPC b = DEFAULT_VALVE_PC_SAFER_OPEN - 1
  /\ isControlledValveReallyOpen b = false
  /\ isControlledValveReallyOpen p = false
  /\ isInErrorState b = false
  /\ isWaitingForValveToBeFitted b = false
  /\ super p = b.
Proof.
  intros Hsafer b p. subst b p. unfold newProportional, newBinaryOnly.
  set (d0 := mkBinaryOnly _ _ init _ _ _ _).
  destruct (clearPerState_frame
              (mkBinaryOnly (sctAbsLimit d0) (minMotorDRTicks d0) init
                 (perState d0) (endStopDetected d0) (currentPC d0)
                 (targetPC d0))) as (Hs & He & Hc & Ht & _).
  fold (changeState init d0) in Hs, He, Hc, Ht. simpl in Hs, Hc, Ht.
  assert (Hclear : PerState.allClear (perState (changeState init d0))).
  { unfold changeState. rewrite clearPerState_perState.
    apply PerState_zeroed_allClear. }
  split; [exact Hs|]. split; [exact Hclear|]. split; [exact Hc|].
  split; [rewrite Ht; apply U8_wrap_small; lia|].
  unfold isControlledValveReallyOpen, isInNormalRunState,
    isInErrorState, isWaitingForValveToBeFitted. simpl.
  rewrite Hs. simpl. repeat split; reflexivity.
Qed.

End MotorDriverMore.

(** ** Valve actuators *)

Section RadValvesMore.
Import RadValves.
Context {params : Parameters}.

Lemma RadValveMock_set_get (x : Z) (v : RadValveMock) :
  RadValveMock_get (snd (RadValveMock_set x v)) =
    (if isValid x then x else RadValveMock_get v).
Proof.
  unfold RadValveMock_set. destruct (isValid x); reflexivity.
Qed.

(** X8: after any run of [set] calls on a [RadValveMock], [get] returns
    the last value of the run that is at most 100, or the value held
    before when there is none; so a mock holding a valid percentage keeps
    holding one, and [reset] after any such run leaves it at 0. *)
Theorem RadValveMock_setAll_get (values : list Z) (v : RadValveMock) :
  RadValveMock_get v <= 100 ->
  get (setAll values v) = lastValid values (RadValveMock_get v)
  /\ get (setAll values v) <= 100
  /\ get (RadValveMock_reset (setAll values v)) = 0.
Proof.
  revert v. induction values as [|x rest IH]; intros v Hv.
  - split; [reflexivity|]. split; [exact Hv|reflexivity].
  - assert (Hnext : RadValveMock_get (snd (RadValveMock_set x v)) <= 100).
    { rewrite RadValveMock_set_get. unfold isValid.
      destruct (Z.leb_spec x 100); lia. }
    destruct (IH _ Hnext) as (Hget & Hle & Hreset).
    change (setAll (x :: rest) v)
      with (setAll rest (snd (RadValveMock_set x v))).
    split; [|split; [exact Hle|exact Hreset]].
    rewrite Hget, RadValveMock_set_get. reflexivity.
Qed.

(** X9: a valve calls for heat exactly when it is in its normal run state
    and its value is at least both its minimum really-open percentage and
    [DEFAULT_VALVE_PC_SAFER_OPEN]; [isUnderTarget] agrees with it, and it
    implies [isControlledValveReallyOpen]. *)
Theorem isCallingForHeat_iff {V : Type} {A : AbstractRadValve V} (v : V) :
  (isCallingForHeat v = true <->
   isInNormalRunState v = true
   /\ Z.max (getMinPercentOpen v) DEFAULT_VALVE_PC_SAFER_OPEN <= get v)
  /\ isUnderTarget v = isCallingForHeat v
  /\ (isCallingForHeat v = true -> isControlledValveReallyOpen v = true).
Proof.
  unfold isUnderTarget, isCallingForHeat, isControlledValveReallyOpen.
  split; [|split; [reflexivity|]].
  - rewrite !andb_true_iff, !Z.leb_le.
    split; [intros [[Hn Hm] Hs]|intros [Hn Hm]];
      repeat split; try assumption; lia.
  - rewrite !andb_true_iff. tauto.
Qed.

(** X10: a [NULLRadValve] accepts no target and, whatever value it holds,
    is never really open, never calling for heat and never under
    target. *)
Theorem NULLRadValve_inert (values : list Z) (v : NULLRadValve) :
  setAll values v = v
  /\ (forall x : Z, fst (set x v) = false)
  /\ isControlledValveReallyOpen v = false
  /\ isCallingForHeat v = false
  /\ isUnderTarget v = false.
Proof.
  split; [|repeat split].
  induction values as [|x rest IH]; simpl; [reflexivity|exact IH].
Qed.

(** X11: for a [BinaryRelayDirect] of either polarity, a [set] above 100
    is refused and changes nothing; an accepted [set] leaves the relay
    energised exactly when the value reaches
    [DEFAULT_VALVE_PC_SAFER_OPEN], which is exactly when the valve then
    reports calling for heat; and [setup] leaves the relay released. *)
Theorem BinaryRelayDirect_relay_follows_call_for_heat (activeHigh : bool)
  (newValue : Z) (r : BinaryRelayDirect) :
  let r' := snd (BinaryRelayDirect_set activeHigh newValue r) in
  (100 < newValue ->
     BinaryRelayDirect_set activeHigh newValue r = (false, r))
  /\ (newValue <= 100 ->
        fst (BinaryRelayDirect_set activeHigh newValue r) = true
        /\ relay_value r' = newValue
        /\ relayEnergised activeHigh r' =
             (DEFAULT_VALVE_PC_SAFER_OPEN <=? newValue)
        /\ relayEnergised activeHigh r' =
             isCallingForHeat (A := BinaryRelayDirect_valve activeHigh) r')
  /\ relayEnergised activeHigh (BinaryRelayDirect_setup activeHigh r) = false.
Proof.
  unfold BinaryRelayDirect_set, calcRelayState. split; [|split].
  - intros Hbig. destruct (Z.ltb_spec 100 newValue); [reflexivity|lia].
  - intros Hok. destruct (Z.ltb_spec 100 newValue); [lia|].
    unfold isCallingForHeat, isControlledValveReallyOpen, relayEnergised.
    simpl.
    destruct (DEFAULT_VALVE_PC_SAFER_OPEN <=? newValue), activeHigh;
      repeat split; reflexivity.
  - unfold relayEnergised, BinaryRelayDirect_setup. simpl.
    destruct activeHigh; reflexivity.
Qed.

End RadValvesMore.

(** ** Power management *)

Section PowerManagementMore.
Import PowerManagement.
Context {target : AVRTarget}.

Lemma BV_testbit (bit j : Z) :
  0 <= bit -> Z.testbit (_BV bit) j = (bit =? j).
Proof.
  intros Hb. unfold _BV. rewrite Z.shiftl_1_l. apply Z.pow2_bits_eqb. exact Hb.
Qed.

Lemma U8_wrap_testbit (a j : Z) :
  Z.testbit (U8.wrap a) j = (j <? 8) && Z.testbit a j.
Proof.
  unfold U8.wrap, U8.modulus. change 256 with (2 ^ 8).
  apply Z.testbit_mod_pow2. lia.
Qed.

Lemma U8_inRange_testbit (a j : Z) :
  U8.inRange a -> Z.testbit a j = (j <? 8) && Z.testbit a j.
Proof.
  intros Ha. rewrite <- U8_wrap_testbit.
  rewrite U8_wrap_small; [reflexivity|exact Ha].
Qed.

Lemma clearBit_testbit (reg bit j : Z) :
  0 <= bit -> 0 <= j ->
  Z.testbit (clearBit reg bit) j =
    (j <? 8) && (Z.testbit reg j && negb (bit =? j)).
Proof.
  intros Hb Hj. unfold clearBit.
  rewrite U8_wrap_testbit, Z.land_spec, Z.lnot_spec by exact Hj.
  rewrite BV_testbit by exact Hb. reflexivity.
Qed.

Lemma setBit_testbit (reg bit j : Z) :
  0 <= bit ->
  Z.testbit (setBit reg bit) j =
    (j <? 8) && (Z.testbit reg j || (bit =? j)).
Proof.
  intros Hb. unfold setBit.
  rewrite U8_wrap_testbit, Z.lor_spec, BV_testbit by exact Hb. reflexivity.
Qed.

Lemma bitIsSet_testbit (reg bit : Z) :
  0 <= bit -> bitIsSet reg bit = Z.testbit reg bit.
Proof.
  intros Hb. unfold bitIsSet.
  assert (Hland :
    Z.land reg (_BV bit) = if Z.testbit reg bit then _BV bit else 0).
  { apply Z.bits_inj'. intros n Hn.
    rewrite Z.land_spec, BV_testbit by exact Hb.
    destruct (Z.eqb_spec bit n) as [->|Hne].
    - destruct (Z.testbit reg n); [|rewrite Z.bits_0; reflexivity].
      rewrite BV_testbit, Z.eqb_refl by exact Hn. reflexivity.
    - rewrite andb_false_r.
      destruct (Z.testbit reg bit); [|rewrite Z.bits_0; reflexivity].
      rewrite BV_testbit by exact Hb.
      symmetry. apply Z.eqb_neq. exact Hne. }
  rewrite Hland. destruct (Z.testbit reg bit); [|reflexivity].
  unfold _BV. rewrite Z.shiftl_1_l.
  destruct (Z.eqb_spec (2 ^ bit) 0) as [E|_]; [|reflexivity].
  pose proof (Z.pow_pos_nonneg 2 bit ltac:(lia) Hb). lia.
Qed.

(** Setting again a bit that was set before it was cleared restores the
    register. *)
Lemma setBit_clearBit_restores (reg bit : Z) :
  U8.inRange reg -> 0 <= bit -> Z.testbit reg bit = true ->
  setBit (clearBit reg bit) bit = reg.
Proof.
  intros Hr Hb Hset. apply Z.bits_inj'. intros n Hn.
  rewrite setBit_testbit, clearBit_testbit by assumption.
  rewrite (U8_inRange_testbit reg n Hr).
  destruct (Z.eqb_spec bit n) as [->|Hne].
  - rewrite Hset. destruct (n <? 8); reflexivity.
  - destruct (n <? 8), (Z.testbit reg n); reflexivity.
Qed.

Lemma t_powerUpSPIIfDisabled_PRR (SPI_nSS : Z) (slowSPI : bool) (h : AVR) :
  PRR (snd (t_powerUpSPIIfDisabled SPI_nSS slowSPI h)) =
    (if bitIsSet (PRR h) PRSPI then clearBit (PRR h) PRSPI else PRR h)
  /\ fst (t_powerUpSPIIfDisabled SPI_nSS slowSPI h) = bitIsSet (PRR h) PRSPI.
Proof.
  unfold t_powerUpSPIIfDisabled.
  destruct (bitIsSet (PRR h) PRSPI); simpl; [|split; reflexivity].
  destruct (F_CPU <=? 2000000); [split; reflexivity|].
  destruct (F_CPU <=? 8000000); split; reflexivity.
Qed.

(** X12: with [PRSPI] a bit of the 8-bit [PRR], [t_powerUpSPIIfDisabled]
    returns true exactly when SPI was powered down; afterwards SPI is
    powered in either case, the other bits of [PRR] that were in use are
    as before, a call that returns false changes nothing at all, and an
    immediate second call returns false. *)
Theorem t_powerUpSPIIfDisabled_powers_SPI (SPI_nSS : Z) (slowSPI : bool)
  (h : AVR) :
  0 <= PRSPI < 8 ->
  let r := t_powerUpSPIIfDisabled SPI_nSS slowSPI h in
  fst r = Z.testbit (PRR h) PRSPI
  /\ Z.testbit (PRR (snd r)) PRSPI = false
  /\ (forall j : Z, 0 <= j < 8 -> j <> PRSPI ->
        Z.testbit (PRR (snd r)) j = Z.testbit (PRR h) j)
  /\ (fst r = false -> snd r = h)
  /\ t_powerUpSPIIfDisabled SPI_nSS slowSPI (snd r) = (false, snd r).
Proof.
  intros Hbit r. subst r.
  destruct (t_powerUpSPIIfDisabled_PRR SPI_nSS slowSPI h) as [Hprr Hret].
  rewrite bitIsSet_testbit in Hprr, Hret by lia.
  assert (Hoff :
    Z.testbit (PRR (snd (t_powerUpSPIIfDisabled SPI_nSS slowSPI h))) PRSPI
    = false).
  { rewrite Hprr. destruct (Z.testbit (PRR h) PRSPI) eqn:E; [|exact E].
    rewrite clearBit_testbit, Z.eqb_refl by lia.
    rewrite andb_false_r, andb_false_r. reflexivity. }
  split; [exact Hret|]. split; [exact Hoff|]. split; [|split].
  - intros j Hj Hne. rewrite Hprr.
    destruct (Z.testbit (PRR h) PRSPI); [|reflexivity].
    rewrite clearBit_testbit by lia.
    destruct (Z.ltb_spec j 8); [|lia].
    destruct (Z.eqb_spec PRSPI j); [congruence|].
    simpl. rewrite andb_true_r. reflexivity.
  - unfold t_powerUpSPIIfDisabled.
    destruct (bitIsSet (PRR h) PRSPI); simpl; [|reflexivity].
    destruct (F_CPU <=? 2000000); [discriminate|].
    destruct (F_CPU <=? 8000000); discriminate.
  - unfold t_powerUpSPIIfDisabled at 1.
    rewrite bitIsSet_testbit, Hoff by lia. reflexivity.
Qed.

(** X13: [t_powerDownSPI] leaves SPI disabled ([SPE] clear) and powered
    down, so the next [t_powerUpSPIIfDisabled] always returns true, and
    that call enables SPI again as master ([SPE] and [MSTR] set), whatever
    the clock configuration. *)
Theorem t_powerDownSPI_then_powerUp (SPI_nSS SPI_SCK SPI_MOSI SPI_MISO : Z)
  (slowSPI : bool) (h : AVR) :
  0 <= PRSPI < 8 -> 0 <= SPE < 8 -> 0 <= MSTR < 8 ->
  let down := t_powerDownSPI SPI_nSS SPI_SCK SPI_MOSI SPI_MISO h in
  let up := t_powerUpSPIIfDisabled SPI_nSS slowSPI down in
  Z.testbit (SPCR down) SPE = false
  /\ Z.testbit (PRR down) PRSPI = true
  /\ fst up = true
  /\ Z.testbit (PRR (snd up)) PRSPI = false
  /\ Z.testbit (SPCR (snd up)) SPE = true
  /\ Z.testbit (SPCR (snd up)) MSTR = true.
Proof.
  intros Hp He Hm down up.
  assert (Hspe : Z.testbit (SPCR down) SPE = false).
  { subst down. simpl. rewrite clearBit_testbit, Z.eqb_refl by lia.
    rewrite andb_false_r, andb_false_r. reflexivity. }
  assert (Hprr : Z.testbit (PRR down) PRSPI = true).
  { subst down. simpl. rewrite setBit_testbit, Z.eqb_refl by lia.
    rewrite orb_true_r. destruct (Z.ltb_spec PRSPI 8); [reflexivity|lia]. }
  assert (Hset : bitIsSet (PRR down) PRSPI = true)
    by (rewrite bitIsSet_testbit by lia; exact Hprr).
  assert (Hmaster : forall bit : Z, 0 <= bit < 8 ->
            (bit = SPE \/ bit = MSTR) ->
            Z.testbit (U8.wrap (Z.lor (_BV SPE) (_BV MSTR))) bit = true).
  { intros bit Hb Hwhich.
    rewrite U8_wrap_testbit, Z.lor_spec, !BV_testbit by lia.
    destruct (Z.ltb_spec bit 8); [|lia]. simpl.
    destruct Hwhich as [->| ->]; rewrite Z.eqb_refl;
      [reflexivity|apply orb_true_r]. }
  assert (Hfast : forall bit : Z, 0 <= bit < 8 ->
            (bit = SPE \/ bit = MSTR) ->
            Z.testbit
              (U8.wrap (Z.lor (_BV SPR0)
                          (U8.wrap (Z.lor (_BV SPE) (_BV MSTR))))) bit
            = true).
  { intros bit Hb Hwhich.
    rewrite U8_wrap_testbit, Z.lor_spec, (Hmaster bit Hb Hwhich).
    rewrite orb_true_r. destruct (Z.ltb_spec bit 8); [reflexivity|lia]. }
  split; [exact Hspe|]. split; [exact Hprr|].
  subst up. unfold t_powerUpSPIIfDisabled. rewrite Hset. simpl.
  assert (Hcleared : Z.testbit (clearBit (PRR down) PRSPI) PRSPI = false).
  { rewrite clearBit_testbit, Z.eqb_refl by lia.
    rewrite andb_false_r, andb_false_r. reflexivity. }
  destruct (F_CPU <=? 2000000); [|destruct (F_CPU <=? 8000000)]; simpl;
    repeat split; try reflexivity; try exact Hcleared;
    try (apply Hmaster; [lia|tauto]); apply Hfast; first [lia|tauto].
Qed.

(** X14: a scope guarded by [RAII_SPIPowerUpSPIIfDisabled] runs its body
    with SPI powered and, when the body itself leaves [PRR] alone, ends
    with [PRR] exactly as it found it: SPI is powered down again only if
    it was powered down before. *)
Theorem withSPI_restores_PRR (SPI_nSS SPI_SCK SPI_MOSI SPI_MISO : Z)
  (slowSPI : bool) (body : AVR -> AVR) (h : AVR) :
  0 <= PRSPI < 8 -> U8.inRange (PRR h) ->
  (forall x : AVR, PRR (body x) = PRR x) ->
  Z.testbit
    (PRR (snd (RAII_SPIPowerUpSPIIfDisabled_ctor SPI_nSS slowSPI h))) PRSPI
  = false
  /\ PRR (withSPI SPI_nSS SPI_SCK SPI_MOSI SPI_MISO slowSPI body h) = PRR h.
Proof.
  intros Hbit Hrange Hbody.
  unfold withSPI, RAII_SPIPowerUpSPIIfDisabled_ctor.
  destruct (t_powerUpSPIIfDisabled_PRR SPI_nSS slowSPI h) as [Hprr Hret].
  rewrite bitIsSet_testbit in Hprr, Hret by lia.
  destruct (t_powerUpSPIIfDisabled SPI_nSS slowSPI h) as [needed h1].
  simpl in Hprr, Hret. simpl. split.
  - rewrite Hprr. destruct (Z.testbit (PRR h) PRSPI) eqn:E; [|exact E].
    rewrite clearBit_testbit, Z.eqb_refl by lia.
    rewrite andb_false_r, andb_false_r. reflexivity.
  - unfold RAII_SPIPowerUpSPIIfDisabled_dtor. rewrite Hret.
    destruct (Z.testbit (PRR h) PRSPI) eqn:E.
    + simpl. rewrite Hbody, Hprr.
      apply setBit_clearBit_restores; [exact Hrange|lia|exact E].
    + rewrite Hbody. exact Hprr.
Qed.

(** X15: with [PRUSART0] a bit of the 8-bit [PRR],
    [powerUpSerialIfDisabled] returns true exactly when the UART was
    powered down, calls [Serial.begin] with the given baud rate exactly in
    that case, and leaves the UART powered either way. *)
Theorem powerUpSerialIfDisabled_powers_UART (baud : Z) (h : AVR) :
  0 <= PRUSART0 < 8 ->
  let r := powerUpSerialIfDisabled baud h in
  fst r = negb (_serialIsPoweredUp h)
  /\ _serialIsPoweredUp (snd r) = true
  /\ calls (snd r) =
       calls h ++ (if _serialIsPoweredUp h then [] else [Serial_begin baud])
  /\ SPCR (snd r) = SPCR h /\ ADCSRA (snd r) = ADCSRA h.
Proof.
  intros Hbit r. subst r. unfold powerUpSerialIfDisabled.
  destruct (_serialIsPoweredUp h) eqn:E; simpl.
  - rewrite app_nil_r. repeat split; try reflexivity. exact E.
  - repeat split; try reflexivity.
    unfold _serialIsPoweredUp. simpl.
    rewrite bitIsSet_testbit, clearBit_testbit, Z.eqb_refl by lia.
    rewrite andb_false_r, andb_false_r. reflexivity.
Qed.

(** X16: with the three power-reduction bits distinct bits of the 8-bit
    [PRR], [powerDownADC] disables the ADC ([ADEN] clear) and removes its
    power ([PRADC] set) without changing whether SPI or the UART is
    powered, and makes no call into the core. *)
Theorem powerDownADC_leaves_SPI_and_UART (h : AVR) :
  0 <= PRADC < 8 -> 0 <= PRSPI < 8 -> 0 <= PRUSART0 < 8 -> 0 <= ADEN ->
  PRADC <> PRSPI -> PRADC <> PRUSART0 ->
  let h' := powerDownADC h in
  Z.testbit (PRR h') PRADC = true
  /\ Z.testbit (ADCSRA h') ADEN = false
  /\ Z.testbit (PRR h') PRSPI = Z.testbit (PRR h) PRSPI
  /\ _serialIsPoweredUp h' = _serialIsPoweredUp h
  /\ (forall (SPI_nSS : Z) (slowSPI : bool),
        fst (t_powerUpSPIIfDisabled SPI_nSS slowSPI h') =
        fst (t_powerUpSPIIfDisabled SPI_nSS slowSPI h))
  /\ calls h' = calls h.
Proof.
  intros Hadc Hspi Huart Haden Hne1 Hne2 h'. subst h'.
  unfold powerDownADC.
  assert (Hkeep : forall bit : Z, 0 <= bit < 8 -> PRADC <> bit ->
            Z.testbit (setBit (PRR h) PRADC) bit = Z.testbit (PRR h) bit).
  { intros bit Hb Hne. rewrite setBit_testbit by lia.
    destruct (Z.ltb_spec bit 8); [|lia].
    destruct (Z.eqb_spec PRADC bit); [contradiction|].
    simpl. apply orb_false_r. }
  cbn [PRR ADCSRA calls].
  split.
  { rewrite setBit_testbit, Z.eqb_refl by lia.
    rewrite orb_true_r. destruct (Z.ltb_spec PRADC 8); [reflexivity|lia]. }
  split.
  { rewrite clearBit_testbit, Z.eqb_refl by lia.
    rewrite andb_false_r, andb_false_r. reflexivity. }
  split; [apply Hkeep; assumption|].
  split.
  { unfold _serialIsPoweredUp. cbn [PRR].
    rewrite !bitIsSet_testbit by lia. rewrite Hkeep by assumption.
    reflexivity. }
  split; [|reflexivity].
  intros SPI_nSS slowSPI.
  destruct (t_powerUpSPIIfDisabled_PRR SPI_nSS slowSPI h) as [_ ->].
  destruct (t_powerUpSPIIfDisabled_PRR SPI_nSS slowSPI
              (mkAVR (setBit (PRR h) PRADC) (SPCR h) (SPSR h)
                 (clearBit (ADCSRA h) ADEN) (calls h))) as [_ ->].
  cbn [PRR]. rewrite !bitIsSet_testbit by lia.
  apply Hkeep; assumption.
Qed.

End PowerManagementMore.

(** ** Occupancy tracking *)

Section SensorOccupancyMore.
Import SensorOccupancy.
Context {hdr : OccupancyHeader}.

(** With a time-out of at most 100 minutes the shift keeps the scaled
    distance from the time-out below 100. *)
Lemma scaled_distance_bound (ocM : Z) :
  1 <= OCCUPATION_TIMEOUT_M <= 100 ->
  1 <= ocM <= OCCUPATION_TIMEOUT_M ->
  0 <= OCCCP_SHIFT
  /\ 0 <= (OCCUPATION_TIMEOUT_M - ocM) * 2 ^ OCCCP_SHIFT <= 99.
Proof.
  intros Ht Ho. unfold OCCCP_SHIFT.
  split_comparisons; try lia;
    (split; [lia|]);
    match goal with
    | |- context [2 ^ ?s] =>
        let v := eval cbv in (2 ^ s) in change (2 ^ s) with v
    end; lia.
Qed.

Lemma confidence_value (ocM : Z) :
  1 <= OCCUPATION_TIMEOUT_M <= 100 -> 16 <= UINT_BITS ->
  1 <= ocM <= OCCUPATION_TIMEOUT_M ->
  confidence ocM = 100 - (OCCUPATION_TIMEOUT_M - ocM) * 2 ^ OCCCP_SHIFT
  /\ 1 <= confidence ocM <= 100.
Proof.
  intros Ht Hu Ho.
  destruct (scaled_distance_bound ocM Ht Ho) as [Hs Hb].
  unfold confidence. destruct (Z.eqb_spec 0 ocM); [lia|].
  rewrite Z.shiftl_mul_pow2 by exact Hs.
  set (x := (OCCUPATION_TIMEOUT_M - ocM) * 2 ^ OCCCP_SHIFT) in *.
  rewrite (U8_wrap_small x) by lia.
  assert (Hpow : 2 ^ 16 <= 2 ^ UINT_BITS)
    by (apply Z.pow_le_mono_r; lia).
  change (2 ^ 16) with 65536 in Hpow.
  unfold unsignedWrap. rewrite Z.mod_small by lia.
  rewrite fnmin_min, Z.min_r by lia.
  rewrite U8_wrap_small by lia. lia.
Qed.

(** X17: with a time-out between 1 and 100 minutes and a countdown within
    it, [read] runs the countdown down by one minute (not below zero),
    returns what it stores in [value], a percentage in [0,100], and that
    percentage is zero exactly when the countdown has run out: a room
    still inside its time-out never reads as 0% occupied. *)
Theorem read_confidence (t : PseudoSensorOccupancyTracker) :
  1 <= OCCUPATION_TIMEOUT_M <= 100 -> 16 <= UINT_BITS ->
  decrementsIfNonZero safeDecIfNZWeak ->
  0 <= occupationCountdownM t <= OCCUPATION_TIMEOUT_M ->
  let r := read t in
  occupationCountdownM (snd r) = Z.max 0 (occupationCountdownM t - 1)
  /\ fst r = value (snd r)
  /\ 0 <= fst r <= 100
  /\ (fst r = 0 <-> occupationCountdownM (snd r) = 0).
Proof.
  intros Ht Hu Hdec Ho r. subst r. unfold read. simpl.
  rewrite (Hdec (occupationCountdownM t)).
  destruct (Z.eqb_spec (occupationCountdownM t) 0) as [E|E].
  - rewrite E. unfold confidence. simpl. repeat split; lia.
  - set (oc := occupationCountdownM t - 1).
    destruct (Z.eq_dec oc 0) as [Ez|Ez].
    + rewrite Ez. unfold confidence. simpl. repeat split; lia.
    + destruct (confidence_value oc Ht Hu ltac:(lia)) as [_ Hc].
      repeat split; lia.
Qed.

(** X18: while the room is vacant (the countdown has run out) every
    [read] adds exactly one minute to the vacancy time held in
    [vacancyH] and [vacancyM], keeping the minutes below 60, until the
    hours reach 255, from where the vacancy time no longer changes; a
    [read] that finds the countdown still running resets it to zero. *)
Theorem read_vacancy (t : PseudoSensorOccupancyTracker) :
  decrementsIfNonZero safeDecIfNZWeak ->
  0 <= occupationCountdownM t ->
  0 <= vacancyM t < 60 -> 0 <= vacancyH t <= 255 ->
  let t' := snd (read t) in
  (occupationCountdownM t <= 1 -> vacancyH t < 255 ->
     vacancyMinutes t' = vacancyMinutes t + 1
     /\ 0 <= vacancyM t' < 60 /\ vacancyH t <= vacancyH t' <= 255)
  /\ (occupationCountdownM t <= 1 -> vacancyH t = 255 ->
        vacancyM t' = vacancyM t /\ vacancyH t' = 255)
  /\ (2 <= occupationCountdownM t -> vacancyM t' = 0 /\ vacancyH t' = 0).
Proof.
  intros Hdec Ho Hm Hh t'. subst t'. unfold read, vacancyMinutes.
  cbn [fst snd vacancyM vacancyH].
  rewrite (Hdec (occupationCountdownM t)).
  assert (Hvacant : occupationCountdownM t <= 1 ->
            (if occupationCountdownM t =? 0 then 0
             else occupationCountdownM t - 1) = 0)
    by (intros Hle; destruct (Z.eqb_spec (occupationCountdownM t) 0); lia).
  split; [|split].
  - intros Hvac Hroom. rewrite (Hvacant Hvac), Z.ltb_irrefl.
    destruct (Z.ltb_spec (vacancyH t) 255); [|lia].
    rewrite (U8_wrap_small (vacancyM t + 1)) by lia.
    destruct (Z.leb_spec 60 (vacancyM t + 1)); cbn [fst snd].
    + rewrite U8_wrap_small by lia. lia.
    + lia.
  - intros Hvac Hfull. rewrite (Hvacant Hvac), Z.ltb_irrefl.
    destruct (Z.ltb_spec (vacancyH t) 255); [lia|]. cbn [fst snd]. lia.
  - intros Hocc.
    destruct (Z.eqb_spec (occupationCountdownM t) 0); [lia|].
    destruct (Z.ltb_spec 0 (occupationCountdownM t - 1)); [|lia].
    cbn [fst snd]. split; reflexivity.
Qed.

Lemma reads_snoc (n : nat) :
  forall t : PseudoSensorOccupancyTracker,
    reads (S n) t = snd (read (reads n t)).
Proof.
  induction n as [|n IH]; intros t; [reflexivity|].
  change (reads (S (S n)) t) with (reads (S n) (snd (read t))).
  rewrite IH. reflexivity.
Qed.

Lemma reads_countdown (n : nat) :
  decrementsIfNonZero safeDecIfNZWeak ->
  forall t : PseudoSensorOccupancyTracker,
    Z.of_nat n <= occupationCountdownM t ->
    occupationCountdownM (reads n t) = occupationCountdownM t - Z.of_nat n.
Proof.
  intros Hdec. induction n as [|n IH]; intros t Hn.
  - simpl. lia.
  - rewrite reads_snoc. unfold read. simpl.
    rewrite (Hdec (occupationCountdownM (reads n t))).
    rewrite IH by lia.
    destruct (Z.eqb_spec (occupationCountdownM t - Z.of_nat n) 0); lia.
Qed.

(** X19: after [markAsOccupied] the room reads as fully occupied at once;
    with no further marks each poll takes a minute off the countdown,
    every poll before the time-out reports an occupancy of at least 1%
    with the vacancy counters at zero, and the poll that completes
    [OCCUPATION_TIMEOUT_M] minutes reports 0%. *)
Theorem markAsOccupied_then_reads (t : PseudoSensorOccupancyTracker)
  (n : nat) :
  1 <= OCCUPATION_TIMEOUT_M <= 100 -> 16 <= UINT_BITS ->
  decrementsIfNonZero safeDecIfNZWeak ->
  Z.of_nat n < OCCUPATION_TIMEOUT_M ->
  let t' := reads (S n) (markAsOccupied t) in
  value (markAsOccupied t) = 100
  /\ occupationCountdownM t' = OCCUPATION_TIMEOUT_M - Z.of_nat (S n)
  /\ (Z.of_nat (S n) < OCCUPATION_TIMEOUT_M ->
        1 <= value t' <= 100 /\ vacancyM t' = 0 /\ vacancyH t' = 0)
  /\ (Z.of_nat (S n) = OCCUPATION_TIMEOUT_M -> value t' = 0).
Proof.
  intros Ht Hu Hdec Hn t'. subst t'.
  split; [reflexivity|].
  assert (Hcount :
    occupationCountdownM (reads n (markAsOccupied t)) =
      OCCUPATION_TIMEOUT_M - Z.of_nat n).
  { rewrite reads_countdown; [reflexivity|exact Hdec|].
    unfold markAsOccupied. cbn [occupationCountdownM]. lia. }
  rewrite reads_snoc, Nat2Z.inj_succ. unfold read.
  cbn [fst snd occupationCountdownM value vacancyM vacancyH].
  rewrite (Hdec (occupationCountdownM (reads n (markAsOccupied t)))).
  rewrite Hcount.
  destruct (Z.eqb_spec (OCCUPATION_TIMEOUT_M - Z.of_nat n) 0); [lia|].
  split; [lia|]. split.
  - intros Hbefore.
    assert (Hin : 1 <= OCCUPATION_TIMEOUT_M - Z.of_nat n - 1
                    <= OCCUPATION_TIMEOUT_M) by lia.
    destruct (confidence_value _ Ht Hu Hin) as [_ Hc].
    destruct (Z.ltb_spec 0 (OCCUPATION_TIMEOUT_M - Z.of_nat n - 1)); [|lia].
    cbn [fst snd]. repeat split; lia.
  - intros Hlast.
    replace (OCCUPATION_TIMEOUT_M - Z.of_nat n - 1) with 0 by lia.
    reflexivity.
Qed.

(** X20: the two weaker marks never shorten the occupancy countdown and
    never touch the reported [value] or the vacancy counters;
    [markAsPossiblyOccupied] starts the new-occupancy timer only when the
    room was vacant, [markAsJustPossiblyOccupied] never touches that timer
    and does nothing at all once the room has been vacant for more than
    [weakVacantHThrH] hours. *)
Theorem weak_marks_only_extend (t : PseudoSensorOccupancyTracker) :
  let p := markAsPossiblyOccupied t in
  let j := markAsJustPossiblyOccupied t in
  occupationCountdownM t <= occupationCountdownM p
  /\ occupationCountdownM p =
       Z.max (occupationCountdownM t) (U8.wrap OCCUPATION_TIMEOUT_LIKELY_M)
  /\ occupationCountdownM t <= occupationCountdownM j
  /\ occupationCountdownM j <=
       Z.max (occupationCountdownM t) (U8.wrap OCCUPATION_TIMEOUT_MAYBE_M)
  /\ value p = value t /\ value j = value t
  /\ vacancyM p = vacancyM t /\ vacancyH p = vacancyH t
  /\ vacancyM j = vacancyM t /\ vacancyH j = vacancyH t
  /\ newOccupancyCountdownM p =
       (if 0 =? occupationCountdownM t then NEW_OCCUPANCY_TIMEOUT_M
        else newOccupancyCountdownM t)
  /\ newOccupancyCountdownM j = newOccupancyCountdownM t
  /\ (weakVacantHThrH < vacancyH t -> j = t).
Proof.
  intros p j. subst p j.
  unfold markAsPossiblyOccupied, markAsJustPossiblyOccupied.
  destruct (Z.ltb_spec weakVacantHThrH (vacancyH t));
    cbn [occupationCountdownM value vacancyM vacancyH newOccupancyCountdownM];
    rewrite ?fnmax_max;
    repeat split; try reflexivity; try lia.
Qed.

End SensorOccupancyMore.

(** ** Logged samples *)

Section DataSamplesMore.
Import DataSamples.

(** X21: for a sample with an hour below 24 and a minute below 60,
    [currentMinute] determines the day, hour and minute it was built
    from; the terminating entry is an end marker and no sample with a day
    of the month up to 31 is. *)
Theorem currentMinute_decodes (s : C16DataSample) :
  0 <= d s -> 0 <= H s < 24 -> 0 <= M s < 60 ->
  currentMinute s mod 60 = M s
  /\ (currentMinute s / 60) mod 24 = H s
  /\ currentMinute s / 1440 = d s
  /\ (d s <= 31 -> isEnd s = false)
  /\ isEnd endSample = true.
Proof.
  intros Hd Hh Hm. unfold currentMinute, isEnd.
  assert (H1 : ((d s * 24 + H s) * 60 + M s) / 60 = d s * 24 + H s).
  { symmetry. apply (Z.div_unique _ 60 _ (M s)); lia. }
  split; [symmetry; apply (Z.mod_unique _ 60 (d s * 24 + H s)); lia|].
  rewrite H1.
  split; [symmetry; apply (Z.mod_unique _ 24 (d s)); lia|].
  split; [symmetry; apply (Z.div_unique _ 1440 _ (H s * 60 + M s)); lia|].
  split; [|reflexivity].
  intros Hday. destruct (Z.ltb_spec 31 (d s)); [lia|reflexivity].
Qed.

(** X22: on such samples [currentMinute] orders records as day, then
    hour, then minute do. *)
Theorem currentMinute_orders (a b : C16DataSample) :
  0 <= H a < 24 -> 0 <= M a < 60 -> 0 <= H b < 24 -> 0 <= M b < 60 ->
  (currentMinute a < currentMinute b <->
   d a < d b
   \/ (d a = d b /\ (H a < H b \/ (H a = H b /\ M a < M b)))).
Proof.
  intros Hha Hma Hhb Hmb. unfold currentMinute. lia.
Qed.

End DataSamplesMore.

(** * Further worked instances *)

Module MoreInstances.
Import MotorTiming RadValves PowerManagement SensorOccupancy DataSamples.
Import Samples MoreSamples.

Example computeSctAbsLimit_sample :
  computeMinMotorDRTicks 7 = 35
  /\ computeSctAbsLimit 7 255 4 = 230
  /\ computeSctAbsLimit 7 100 30 = 140.
Proof. repeat split; reflexivity. Qed.

Lemma computeMinMotorDRTicks_bounds_witness :
  1 <= 7 <= 255 /\ 1 <= computeMinMotorDRTicks 7 <= 250.
Proof.
  split; [lia|].
  destruct (computeMinMotorDRTicks_bounds 7 ltac:(lia)) as [Hb _].
  exact Hb.
Defined.

Lemma computeSctAbsLimit_in_last_quarter_witness :
  1 <= 7 /\ 1 <= 255 <= 255 /\ 0 <= 4 /\ 0 <= sctMargin 7 255 4
  /\ computeSctAbsLimit 7 255 4 = 255 - Z.max 1 (sctMargin 7 255 4).
Proof.
  assert (Hm : 0 <= sctMargin 7 255 4) by (vm_compute; discriminate).
  split; [lia|]. split; [lia|]. split; [lia|]. split; [exact Hm|].
  destruct (computeSctAbsLimit_in_last_quarter 7 255 4
              ltac:(lia) ltac:(lia) ltac:(lia) Hm) as [He _].
  exact He.
Defined.

Lemma computeSctAbsLimit_negative_margin_witness :
  1 <= 7 /\ 0 <= 100 <= 255 /\ -255 <= sctMargin 7 100 30 < 0
  /\ 100 - sctMargin 7 100 30 <= 255
  /\ 100 < computeSctAbsLimit 7 100 30.
Proof.
  assert (Hm : -255 <= sctMargin 7 100 30 < 0)
    by (vm_compute; split; [discriminate|reflexivity]).
  assert (Hf : 100 - sctMargin 7 100 30 <= 255)
    by (vm_compute; discriminate).
  split; [lia|]. split; [lia|]. split; [exact Hm|]. split; [exact Hf|].
  destruct (computeSctAbsLimit_negative_margin 7 100 30
              ltac:(lia) ltac:(lia) Hm Hf) as [_ Hgt].
  exact Hgt.
Defined.

Lemma signalValveFitted_guarded_witness :
  state (changeState valvePinWithdrawn (super (runningDriver 0 0)))
    = valvePinWithdrawn
  /\ perState (changeState valvePinWithdrawn (super (runningDriver 0 0)))
       <> []
  /\ PerState.valvePinWithdrawn_valveFitted
       (perState
          (signalValveFitted
             (changeState valvePinWithdrawn (super (runningDriver 0 0)))))
     = true.
Proof.
  assert (Hp : perState
                 (changeState valvePinWithdrawn (super (runningDriver 0 0)))
               <> []) by (vm_compute; discriminate).
  split; [reflexivity|]. split; [exact Hp|].
  destruct (signalValveFitted_guarded
              (changeState valvePinWithdrawn (super (runningDriver 0 0))))
    as (_ & Hin & _).
  destruct (Hin eq_refl Hp) as [Hflag _].
  exact Hflag.
Defined.

Lemma fresh_driver_state_witness :
  1 <= DEFAULT_VALVE_PC_SAFER_OPEN (Parameters := parameters) <= 256
  /\ targetPC (newBinaryOnly (H := parameters) 10 200 [7; 7; 7; 7; 7; 7; 7; 7])
     = 49.
Proof.
  assert (Hs : 1 <= DEFAULT_VALVE_PC_SAFER_OPEN (Parameters := parameters)
                 <= 256) by (simpl; lia).
  split; [exact Hs|].
  destruct (@fresh_driver_state parameters outOfLine 10 200
              [7; 7; 7; 7; 7; 7; 7; 7] 0 0 Hs) as (_ & _ & _ & Ht & _).
  exact Ht.
Defined.

Lemma RadValveMock_setAll_get_witness :
  RadValveMock_get (mkRadValveMock 30) <= 100
  /\ get (setAll [50; 120; 70; 200] (mkRadValveMock 30)) = 70.
Proof.
  assert (Hv : RadValveMock_get (mkRadValveMock 30) <= 100)
    by (simpl; lia).
  split; [exact Hv|].
  destruct (RadValveMock_setAll_get [50; 120; 70; 200] (mkRadValveMock 30) Hv)
    as [Hget _].
  exact Hget.
Defined.

Lemma isCallingForHeat_iff_witness :
  isCallingForHeat (params := parameters) (mkRadValveMock 60) = true
  /\ isControlledValveReallyOpen (mkRadValveMock 60) = true.
Proof.
  split; [reflexivity|].
  destruct (@isCallingForHeat_iff parameters RadValveMock RadValveMock_valve
              (mkRadValveMock 60)) as (_ & _ & Himp).
  exact (Himp eq_refl).
Defined.

Lemma BinaryRelayDirect_relay_follows_call_for_heat_witness :
  60 <= 100
  /\ relayEnergised false
       (snd (BinaryRelayDirect_set (params := parameters) false 60
               (mkBinaryRelayDirect 0 None false))) = true.
Proof.
  split; [lia|].
  destruct (@BinaryRelayDirect_relay_follows_call_for_heat parameters false 60
              (mkBinaryRelayDirect 0 None false)) as (_ & Hok & _).
  destruct (Hok ltac:(lia)) as (_ & _ & Hrelay & _).
  exact Hrelay.
Defined.

Lemma t_powerUpSPIIfDisabled_powers_SPI_witness :
  0 <= PRSPI (AVRTarget := atmega328p) < 8
  /\ fst (t_powerUpSPIIfDisabled (target := atmega328p) 10 false asleep)
     = true.
Proof.
  assert (Hb : 0 <= PRSPI (AVRTarget := atmega328p) < 8) by (simpl; lia).
  split; [exact Hb|].
  destruct (@t_powerUpSPIIfDisabled_powers_SPI atmega328p 10 false asleep Hb)
    as [Hret _].
  exact Hret.
Defined.

Lemma t_powerDownSPI_then_powerUp_witness :
  0 <= PRSPI (AVRTarget := atmega328p) < 8
  /\ 0 <= SPE (AVRTarget := atmega328p) < 8
  /\ 0 <= MSTR (AVRTarget := atmega328p) < 8
  /\ fst (t_powerUpSPIIfDisabled (target := atmega328p) 10 false
            (t_powerDownSPI (target := atmega328p) 10 13 11 12 spiRunning))
     = true.
Proof.
  assert (Hp : 0 <= PRSPI (AVRTarget := atmega328p) < 8) by (simpl; lia).
  assert (He : 0 <= SPE (AVRTarget := atmega328p) < 8) by (simpl; lia).
  assert (Hm : 0 <= MSTR (AVRTarget := atmega328p) < 8) by (simpl; lia).
  split; [exact Hp|]. split; [exact He|]. split; [exact Hm|].
  destruct (@t_powerDownSPI_then_powerUp atmega328p 10 13 11 12 false
              spiRunning Hp He Hm) as (_ & _ & Hup & _).
  exact Hup.
Defined.

Lemma withSPI_restores_PRR_witness :
  0 <= PRSPI (AVRTarget := atmega328p) < 8
  /\ U8.inRange (PRR asleep)
  /\ PRR (withSPI (target := atmega328p) 10 13 11 12 false (fun x => x) asleep)
     = 255.
Proof.
  assert (Hp : 0 <= PRSPI (AVRTarget := atmega328p) < 8) by (simpl; lia).
  assert (Hr : U8.inRange (PRR asleep))
    by (unfold U8.inRange, U8.modulus; simpl; lia).
  split; [exact Hp|]. split; [exact Hr|].
  destruct (@withSPI_restores_PRR atmega328p 10 13 11 12 false (fun x => x)
              asleep Hp Hr (fun x => eq_refl)) as [_ Hprr].
  exact Hprr.
Defined.

Lemma powerUpSerialIfDisabled_powers_UART_witness :
  0 <= PRUSART0 (AVRTarget := atmega328p) < 8
  /\ calls (snd (powerUpSerialIfDisabled (target := atmega328p) 4800 asleep))
     = [Serial_begin 4800].
Proof.
  assert (Hb : 0 <= PRUSART0 (AVRTarget := atmega328p) < 8) by (simpl; lia).
  split; [exact Hb|].
  destruct (@powerUpSerialIfDisabled_powers_UART atmega328p 4800 asleep Hb)
    as (_ & _ & Hcalls & _).
  exact Hcalls.
Defined.

Lemma powerDownADC_leaves_SPI_and_UART_witness :
  0 <= PRADC (AVRTarget := atmega328p) < 8
  /\ 0 <= PRSPI (AVRTarget := atmega328p) < 8
  /\ 0 <= PRUSART0 (AVRTarget := atmega328p) < 8
  /\ 0 <= ADEN (AVRTarget := atmega328p)
  /\ PRADC (AVRTarget := atmega328p) <> PRSPI (AVRTarget := atmega328p)
  /\ PRADC (AVRTarget := atmega328p) <> PRUSART0 (AVRTarget := atmega328p)
  /\ Z.testbit (ADCSRA (powerDownADC (target := atmega328p) spiRunning))
       (ADEN (AVRTarget := atmega328p)) = false.
Proof.
  assert (Ha : 0 <= PRADC (AVRTarget := atmega328p) < 8) by (simpl; lia).
  assert (Hs : 0 <= PRSPI (AVRTarget := atmega328p) < 8) by (simpl; lia).
  assert (Hu : 0 <= PRUSART0 (AVRTarget := atmega328p) < 8) by (simpl; lia).
  assert (He : 0 <= ADEN (AVRTarget := atmega328p)) by (simpl; lia).
  assert (H1 : PRADC (AVRTarget := atmega328p)
               <> PRSPI (AVRTarget := atmega328p)) by (simpl; lia).
  assert (H2 : PRADC (AVRTarget := atmega328p)
               <> PRUSART0 (AVRTarget := atmega328p)) by (simpl; lia).
  split; [exact Ha|]. split; [exact Hs|]. split; [exact Hu|].
  split; [exact He|]. split; [exact H1|]. split; [exact H2|].
  destruct (@powerDownADC_leaves_SPI_and_UART atmega328p spiRunning
              Ha Hs Hu He H1 H2) as (_ & Hoff & _).
  exact Hoff.
Defined.

Lemma occupancyHeader_decrements :
  decrementsIfNonZero (safeDecIfNZWeak (OccupancyHeader := occupancyHeader)).
Proof. intros v. reflexivity. Defined.

Example read_sample :
  fst (read (hdr := occupancyHeader) (mkTracker 100 50 4 0 0)) = 98
  /\ fst (read (hdr := occupancyHeader) (mkTracker 100 2 0 0 0)) = 2
  /\ fst (read (hdr := occupancyHeader) (mkTracker 100 1 0 0 0)) = 0
  /\ snd (read (hdr := occupancyHeader) vacantRoom) = mkTracker 0 0 0 0 4.
Proof. repeat split; reflexivity. Qed.

Lemma read_confidence_witness :
  1 <= OCCUPATION_TIMEOUT_M (OccupancyHeader := occupancyHeader) <= 100
  /\ 16 <= UINT_BITS (OccupancyHeader := occupancyHeader)
  /\ 0 <= occupationCountdownM (mkTracker 100 50 4 0 0)
       <= OCCUPATION_TIMEOUT_M (OccupancyHeader := occupancyHeader)
  /\ occupationCountdownM
       (snd (read (hdr := occupancyHeader) (mkTracker 100 50 4 0 0)))
     = Z.max 0 (50 - 1).
Proof.
  assert (Ht : 1 <= OCCUPATION_TIMEOUT_M (OccupancyHeader := occupancyHeader)
                 <= 100) by (simpl; lia).
  assert (Hu : 16 <= UINT_BITS (OccupancyHeader := occupancyHeader))
    by (simpl; lia).
  assert (Ho : 0 <= occupationCountdownM (mkTracker 100 50 4 0 0)
                 <= OCCUPATION_TIMEOUT_M (OccupancyHeader := occupancyHeader))
    by (simpl; lia).
  split; [exact Ht|]. split; [exact Hu|]. split; [exact Ho|].
  destruct (@read_confidence occupancyHeader (mkTracker 100 50 4 0 0)
              Ht Hu occupancyHeader_decrements Ho) as [Hc _].
  exact Hc.
Defined.

Lemma read_vacancy_witness :
  0 <= occupationCountdownM vacantRoom
  /\ 0 <= vacancyM vacantRoom < 60 /\ 0 <= vacancyH vacantRoom <= 255
  /\ vacancyMinutes (snd (read (hdr := occupancyHeader) vacantRoom))
     = vacancyMinutes vacantRoom + 1.
Proof.
  assert (Ho : 0 <= occupationCountdownM vacantRoom) by (simpl; lia).
  assert (Hm : 0 <= vacancyM vacantRoom < 60) by (simpl; lia).
  assert (Hh : 0 <= vacancyH vacantRoom <= 255) by (simpl; lia).
  split; [exact Ho|]. split; [exact Hm|]. split; [exact Hh|].
  destruct (@read_vacancy occupancyHeader vacantRoom
              occupancyHeader_decrements Ho Hm Hh) as [Hinc _].
  destruct (Hinc ltac:(simpl; lia) ltac:(simpl; lia)) as [Hmin _].
  exact Hmin.
Defined.

Lemma markAsOccupied_then_reads_witness :
  1 <= OCCUPATION_TIMEOUT_M (OccupancyHeader := occupancyHeader) <= 100
  /\ 16 <= UINT_BITS (OccupancyHeader := occupancyHeader)
  /\ Z.of_nat 3 < OCCUPATION_TIMEOUT_M (OccupancyHeader := occupancyHeader)
  /\ occupationCountdownM
       (reads (hdr := occupancyHeader) 4
          (markAsOccupied (hdr := occupancyHeader) vacantRoom))
     = 50 - Z.of_nat 4.
Proof.
  assert (Ht : 1 <= OCCUPATION_TIMEOUT_M (OccupancyHeader := occupancyHeader)
                 <= 100) by (simpl; lia).
  assert (Hu : 16 <= UINT_BITS (OccupancyHeader := occupancyHeader))
    by (simpl; lia).
  assert (Hn : Z.of_nat 3
                 < OCCUPATION_TIMEOUT_M (OccupancyHeader := occupancyHeader))
    by (simpl; lia).
  split; [exact Ht|]. split; [exact Hu|]. split; [exact Hn|].
  destruct (@markAsOccupied_then_reads occupancyHeader vacantRoom 3
              Ht Hu occupancyHeader_decrements Hn) as (_ & Hc & _).
  exact Hc.
Defined.

Lemma weak_marks_only_extend_witness :
  weakVacantHThrH (OccupancyHeader := occupancyHeader) < vacancyH vacantRoom
  /\ markAsJustPossiblyOccupied (hdr := occupancyHeader) vacantRoom
     = vacantRoom.
Proof.
  assert (Hv : weakVacantHThrH (OccupancyHeader := occupancyHeader)
                 < vacancyH vacantRoom) by (simpl; lia).
  split; [exact Hv|].
  destruct (@weak_marks_only_extend occupancyHeader vacantRoom)
    as (_ & _ & _ & _ & _ & _ & _ & _ & _ & _ & _ & _ & Hskip).
  exact (Hskip Hv).
Defined.

Lemma currentMinute_decodes_witness :
  0 <= d (mkSample 0 6 45 20 319)
  /\ 0 <= H (mkSample 0 6 45 20 319) < 24
  /\ 0 <= M (mkSample 0 6 45 20 319) < 60
  /\ currentMinute (mkSample 0 6 45 20 319) mod 60 = 45.
Proof.
  assert (Hd : 0 <= d (mkSample 0 6 45 20 319)) by (simpl; lia).
  assert (Hh : 0 <= H (mkSample 0 6 45 20 319) < 24) by (simpl; lia).
  assert (Hm : 0 <= M (mkSample 0 6 45 20 319) < 60) by (simpl; lia).
  split; [exact Hd|]. split; [exact Hh|]. split; [exact Hm|].
  destruct (currentMinute_decodes (mkSample 0 6 45 20 319) Hd Hh Hm)
    as [Hmin _].
  exact Hmin.
Defined.

Lemma currentMinute_orders_witness :
  0 <= H (mkSample 0 6 45 20 319) < 24
  /\ 0 <= M (mkSample 0 6 45 20 319) < 60
  /\ 0 <= H (mkSample 0 6 57 20 302) < 24
  /\ 0 <= M (mkSample 0 6 57 20 302) < 60
  /\ currentMinute (mkSample 0 6 45 20 319)
     < currentMinute (mkSample 0 6 57 20 302).
Proof.
  assert (Hha : 0 <= H (mkSample 0 6 45 20 319) < 24) by (simpl; lia).
  assert (Hma : 0 <= M (mkSample 0 6 45 20 319) < 60) by (simpl; lia).
  assert (Hhb : 0 <= H (mkSample 0 6 57 20 302) < 24) by (simpl; lia).
  assert (Hmb : 0 <= M (mkSample 0 6 57 20 302) < 60) by (simpl; lia).
  split; [exact Hha|]. split; [exact Hma|]. split; [exact Hhb|].
  split; [exact Hmb|].
  apply (currentMinute_orders (mkSample 0 6 45 20 319)
           (mkSample 0 6 57 20 302) Hha Hma Hhb Hmb).
  right. split; [reflexivity|]. right. split; [reflexivity|]. simpl. lia.
Defined.

End MoreInstances.
